(** * The power menu of moonlight_dots ([.config/scripts/power.py])

    A shallow embedding of [PowerMenu]: the colour cache loader, the theme
    renderer, the Lock fallback chain, the confirmed Reboot and Shutdown
    actions, Cancel, and the hex colour conversion, with the properties
    the specification states about them.

    Python values, exceptions and the library calls the script makes are
    modelled first; the methods of [PowerMenu] follow in source order. *)

From Stdlib Require Import ZArith String Ascii List Bool Lia.
From Stdlib Require Import Floats.PrimFloat Numbers.Cyclic.Int63.Uint63.
From stdpp Require Import base option gmap strings list.

Open Scope string_scope.
Open Scope Z_scope.

(** ** Characters and strings

    A Python [str] is modelled as a Rocq [string], one [ascii] per
    character: the model holds ASCII text. *)

Module Chars.

Definition code (a : ascii) : N := N_of_ascii a.

(** C [isspace] in the "C" locale, the test [int()] uses on its argument. *)
Definition c_isspace (a : ascii) : bool :=
  ((9 <=? code a) && (code a <=? 13) || (code a =? 32))%N.

(** [str.isspace] on an ASCII character, the test [str.split()] uses. *)
Definition py_isspace (a : ascii) : bool :=
  (c_isspace a || (28 <=? code a) && (code a <=? 31))%N.

(** The value of a hexadecimal digit. *)
Definition hex_value (a : ascii) : option Z :=
  let n := code a in
  if ((48 <=? n) && (n <=? 57))%N then Some (Z.of_N n - 48)
  else if ((97 <=? n) && (n <=? 102))%N then Some (Z.of_N n - 87)
  else if ((65 <=? n) && (n <=? 70))%N then Some (Z.of_N n - 55)
  else None.

Definition is_hex (a : ascii) : bool :=
  match hex_value a with Some _ => true | None => false end.

End Chars.

Definition is_empty (s : string) : bool :=
  match s with EmptyString => true | String _ _ => false end.

(** ** Exceptions and results *)

Inductive exn : Type :=
  | KeyError (key : string)
  | TypeError
  | AttributeError
  | ValueError
  | JSONDecodeError
  | OSError
  | FileNotFoundError
  | PermissionError
  | CalledProcessError (returncode : Z).

Inductive result (A : Type) : Type :=
  | Ok (a : A)
  | Raise (e : exn).
Arguments Ok {A} a.
Arguments Raise {A} e.

(** ** Python values

    What the script does with a value read from the colour cache is:
    subscript it with a string key, format it into an f-string, and call
    [lstrip] on it.  A value is therefore a [str], a [dict] with string
    keys, or anything else JSON decodes to ([None], a bool, a number, a
    list), which answers the three operations alike.  A value that is not
    a [str] carries the text [str()] gives for it, which is what an
    f-string inserts. *)

#[warning="-register-all"]
Inductive pyval : Type :=
  | PStr (s : string)
  | PDict (shown : string) (items : gmap string pyval)
  | POther (shown : string).

Module Py.

(** [v[key]] for a string key. *)
Definition getitem (v : pyval) (key : string) : result pyval :=
  match v with
  | PDict _ items =>
      match items !! key with
      | Some x => Ok x
      | None => Raise (KeyError key)
      end
  | PStr _ | POther _ => Raise TypeError
  end.

(** [f"{v}"]: the text an f-string inserts for [v]. *)
Definition format (v : pyval) : string :=
  match v with
  | PStr s => s
  | PDict shown _ | POther shown => shown
  end.

(** [s.lstrip(c)] for a one-character argument. *)
Fixpoint str_lstrip (c : ascii) (s : string) : string :=
  match s with
  | String a rest => if Ascii.eqb a c then str_lstrip c rest else s
  | EmptyString => EmptyString
  end.

(** [v.lstrip('#')]: only a [str] has the method. *)
Definition lstrip_hash (v : pyval) : result string :=
  match v with
  | PStr s => Ok (str_lstrip "#" s)
  | PDict _ _ | POther _ => Raise AttributeError
  end.

(** [s[i:j]] for [0 <= i <= j]; a slice past the end is cut short. *)
Definition slice (i j : nat) (s : string) : string :=
  substring i (j - i) s.

(** [s.split()]: the maximal runs of non-blank characters. *)
Fixpoint split_from (cur : string) (s : string) : list string :=
  match s with
  | EmptyString => if is_empty cur then [] else [cur]
  | String a rest =>
      if Chars.py_isspace a
      then (if is_empty cur then split_from "" rest
            else cur :: split_from "" rest)
      else split_from (cur ++ String a "") rest
  end.

Definition split (s : string) : list string := split_from "" s.

(** *** [int(s, 16)]

    Blanks around the literal, a sign, a [0x] prefix and single
    underscores between digits are accepted, as CPython's
    [PyLong_FromString] does. *)

Fixpoint skip_space (s : string) : string :=
  match s with
  | String a rest => if Chars.c_isspace a then skip_space rest else s
  | EmptyString => EmptyString
  end.

Definition take_sign (s : string) : bool * string :=
  match s with
  | String "+" rest => (false, rest)
  | String "-" rest => (true, rest)
  | _ => (false, s)
  end.

Definition skip_hex_prefix (s : string) : string :=
  match s with
  | String "0" (String x rest) =>
      if Ascii.eqb x "x" || Ascii.eqb x "X"
      then match rest with
           | String "_" rest' => rest'
           | _ => rest
           end
      else s
  | _ => s
  end.

(** The digit loop: [prev_us] tells that the character before was an
    underscore, [digits] counts the digits read, [acc] is their value.
    It stops at the first character that is neither. *)
Fixpoint hex_digits (prev_us : bool) (digits : nat) (acc : Z) (s : string)
  : option (nat * Z * string) :=
  match s with
  | EmptyString => if prev_us then None else Some (digits, acc, s)
  | String a rest =>
      match Chars.hex_value a with
      | Some d => hex_digits false (S digits) (16 * acc + d) rest
      | None =>
          if Ascii.eqb a "_"
          then (if prev_us then None else hex_digits true digits acc rest)
          else (if prev_us then None else Some (digits, acc, s))
      end
  end.

Definition int16 (s : string) : result Z :=
  let '(negative, body) := take_sign (skip_space s) in
  let body := skip_hex_prefix body in
  match body with
  | String "_" _ => Raise ValueError
  | _ =>
      match hex_digits false 0 0 body with
      | Some (S _, n, rest) =>
          if is_empty (skip_space rest)
          then Ok (if negative then - n else n)
          else Raise ValueError
      | Some (O, _, _) | None => Raise ValueError
      end
  end.

(** [int / 255] for an [int] below [2^53] in magnitude: both operands
    are exact doubles and the quotient is the IEEE 754 division. *)
Definition float_of_int (n : Z) : float :=
  if n <? 0 then PrimFloat.opp (PrimFloat.of_uint63 (Uint63.of_Z (- n)))
  else PrimFloat.of_uint63 (Uint63.of_Z n).

Definition truediv_255 (n : Z) : float :=
  PrimFloat.div (float_of_int n) (float_of_int 255).

End Py.

(** [Gdk.RGBA]: four doubles. *)
Record RGBA : Type := mkRGBA {
  red : float;
  green : float;
  blue : float;
  alpha : float
}.

Definition result_bind {A B : Type} (r : result A) (k : A -> result B)
  : result B :=
  match r with
  | Ok a => k a
  | Raise e => Raise e
  end.

(** [PowerMenu.hex_to_rgba]. *)
Definition hex_to_rgba (hex_color : pyval) : result RGBA :=
  result_bind (Py.lstrip_hash hex_color) (fun hex_color =>
  result_bind (Py.int16 (Py.slice 0 2 hex_color)) (fun r =>
  result_bind (Py.int16 (Py.slice 2 4 hex_color)) (fun g =>
  result_bind (Py.int16 (Py.slice 4 6 hex_color)) (fun b =>
  Ok (mkRGBA (Py.truediv_255 r) (Py.truediv_255 g) (Py.truediv_255 b)
             1%float))))).

(** ** Colours *)

(** A colour as the data model has it: [#] and exactly six hex digits. *)
Fixpoint all_hex (s : string) : bool :=
  match s with
  | EmptyString => true
  | String a rest => Chars.is_hex a && all_hex rest
  end.

Definition six_hex (digits : string) : bool :=
  (String.length digits =? 6)%nat && all_hex digits.

Definition valid_color (s : string) : bool :=
  match s with
  | String "#" digits => six_hex digits
  | _ => false
  end.

(** The byte two hex digits at positions [i] and [i+1] of [digits] denote. *)
Definition digit_at (digits : string) (i : nat) : Z :=
  match String.get i digits with
  | Some a => default 0 (Chars.hex_value a)
  | None => 0
  end.

Definition byte_at (digits : string) (i : nat) : Z :=
  16 * digit_at digits i + digit_at digits (S i).

(** The hexadecimal digits. *)
Definition hex_chars : list ascii :=
  list_ascii_of_string "0123456789abcdefABCDEF".

Definition in_unit_interval (x : float) : bool :=
  PrimFloat.leb 0%float x && PrimFloat.leb x 1%float.

(** ** The world outside the process

    Everything the script reads from outside: the environment, the colour
    cache file, what spawning a command line gives, what a shell command
    returns, and the answer to a confirmation dialog. *)

(** [~/.cache/wal/colors.json] as [load_wal_colors] meets it: not there;
    there but [open] fails; there with text [json.load] rejects; there
    with text [json.load] decodes to a value. *)
#[warning="-register-all"]
Inductive cache_file : Type :=
  | FileAbsent
  | FileUnreadable
  | FileInvalid
  | FileJson (decoded : pyval).

(** What [subprocess.run(argv)] meets: the process ran and exited with a
    return code, the executable does not exist, or it may not be run.  A
    handler runs each command line at most once, so the world holds one
    result per command line. *)
Inductive spawn : Type :=
  | Exited (returncode : Z)
  | NoSuchFile
  | NotPermitted.

Record world : Type := mkWorld {
  environ : gmap string string;
  colors_json : cache_file;
  spawn_result : list string -> spawn;
  shell_status : string -> Z;
  dialog_response : Z
}.

(** [Gtk.ResponseType]. *)
Module ResponseType.
Definition NONE : Z := -1.
Definition DELETE_EVENT : Z := -4.
Definition YES : Z := -8.
Definition NO : Z := -9.
End ResponseType.

(** ** Effects

    What a run does to the outside, in order. *)
Inductive event : Type :=
  | Spawned (argv : list string)
  | Shell (command : string)
  | ProviderAdded (css : string)
  | DialogRun (text secondary : string) (background foreground : RGBA)
  | DialogDestroyed
  | WindowDestroyed.

(** A computation: the events it caused, and its value or the exception
    it raised. *)
Definition prog (A : Type) : Type := (list event * result A)%type.

Definition ret {A : Type} (a : A) : prog A := ([], Ok a).

Definition raise {A : Type} (e : exn) : prog A := ([], Raise e).

Definition lift {A : Type} (r : result A) : prog A := ([], r).

Definition emit (ev : event) : prog unit := ([ev], Ok tt).

Definition bind {A B : Type} (m : prog A) (k : A -> prog B) : prog B :=
  match m with
  | (t, Ok a) => let '(t', r) := k a in ((t ++ t')%list, r)
  | (t, Raise e) => (t, Raise e)
  end.

(** [try: body / except handled: handler]. *)
Definition try_except {A : Type} (body : prog A) (handled : exn -> bool)
  (handler : prog A) : prog A :=
  match body with
  | (t, Raise e) =>
      if handled e then let '(t', r) := handler in ((t ++ t')%list, r) else body
  | (_, Ok _) => body
  end.

#[global] Instance prog_ret : MRet prog := @ret.
#[global] Instance prog_bind : MBind prog := fun A B k m => bind m k.

(** How a loop body ends: [break] or falling through to the next item. *)
Inductive loop_exit : Type := Break | Continue.

(** [for x in items: body]. *)
Fixpoint for_each {A : Type} (body : A -> prog loop_exit) (items : list A)
  : prog unit :=
  match items with
  | [] => ret tt
  | x :: rest =>
      how ← body x;
      match how with
      | Break => ret tt
      | Continue => for_each body rest
      end
  end.

Definition trace {A : Type} (m : prog A) : list event := fst m.

Definition outcome {A : Type} (m : prog A) : result A := snd m.

(** The external commands a trace invoked, in order. *)
Inductive command : Type :=
  | Argv (argv : list string)
  | ShellLine (line : string).

Definition command_of (ev : event) : option command :=
  match ev with
  | Spawned argv => Some (Argv argv)
  | Shell line => Some (ShellLine line)
  | _ => None
  end.

Definition commands (t : list event) : list command :=
  omap command_of t.

Definition is_window_destroyed (ev : event) : bool :=
  match ev with WindowDestroyed => true | _ => false end.

Definition is_dialog_run (ev : event) : bool :=
  match ev with DialogRun _ _ _ _ => true | _ => false end.

Definition is_dialog_destroyed (ev : event) : bool :=
  match ev with DialogDestroyed => true | _ => false end.

Definition window_closed (t : list event) : bool :=
  existsb is_window_destroyed t.

Definition dialog_shown (t : list event) : bool :=
  existsb is_dialog_run t.

Definition dialog_closed (t : list event) : bool :=
  existsb is_dialog_destroyed t.

(** ** The style sheet text of [apply_theme] *)

Definition css_text (bg_color fg_color accent_color : string) : string :=
"
        * {
            font-family: 'Sans';
            font-size: 14px;
        }
        
        window {
            background-color: " ++ bg_color ++ ";
            border-radius: 0px;
            border: 2px solid " ++ accent_color ++ ";
        }
        
        label {
            color: " ++ fg_color ++ ";
        }
        
        button {
            background-color: shade(" ++ bg_color ++ ", 1.1);
            color: " ++ fg_color ++ ";
            border-radius: 0px;
            padding: 12px 24px;
            margin: 0;
            border: none;
            transition: all 0.2s ease;
        }
        
        button:hover {
            background-color: " ++ accent_color ++ ";
            color: " ++ bg_color ++ ";
        }
        
        button:active {
            background-color: shade(" ++ accent_color ++ ", 0.9);
        }
        ".

(** ** [PowerMenu] *)

Record PowerMenu : Type := mkPowerMenu {
  is_hyprland : bool;
  wal_colors : pyval
}.

(** The dict literal [load_wal_colors] returns when the cache is absent. *)
Definition default_special : pyval :=
  PDict "{'background': '#282a36', 'foreground': '#f8f8f2'}"
    (<["background" := PStr "#282a36"]>
     (<["foreground" := PStr "#f8f8f2"]> ∅)).

Definition default_colors : pyval :=
  PDict "{'color0': '#21222c', 'color1': '#ff5555', 'color2': '#50fa7b', 'color3': '#f1fa8c', 'color4': '#bd93f9', 'color5': '#ff79c6', 'color6': '#8be9fd', 'color7': '#f8f8f2'}"
    (<["color0" := PStr "#21222c"]>
     (<["color1" := PStr "#ff5555"]>
     (<["color2" := PStr "#50fa7b"]>
     (<["color3" := PStr "#f1fa8c"]>
     (<["color4" := PStr "#bd93f9"]>
     (<["color5" := PStr "#ff79c6"]>
     (<["color6" := PStr "#8be9fd"]>
     (<["color7" := PStr "#f8f8f2"]> ∅)))))))).

Definition default_palette : pyval :=
  PDict "{'special': {'background': '#282a36', 'foreground': '#f8f8f2'}, 'colors': {'color0': '#21222c', 'color1': '#ff5555', 'color2': '#50fa7b', 'color3': '#f1fa8c', 'color4': '#bd93f9', 'color5': '#ff79c6', 'color6': '#8be9fd', 'color7': '#f8f8f2'}}"
    (<["special" := default_special]>
     (<["colors" := default_colors]> ∅)).

Definition lock_commands : list string :=
  [ "loginctl lock-session";
    "dm-tool lock";
    "i3lock";
    "swaylock" ].

(** The exceptions [except (subprocess.CalledProcessError,
    FileNotFoundError)] catches. *)
Definition lock_handled (e : exn) : bool :=
  match e with
  | CalledProcessError _ | FileNotFoundError => true
  | _ => false
  end.

Section Methods.

Variable w : world.

(** [subprocess.run(argv, check=True)]. *)
Definition subprocess_run (argv : list string) : prog unit :=
  emit (Spawned argv) ;;
  match spawn_result w argv with
  | Exited returncode =>
      if returncode =? 0 then ret tt
      else raise (CalledProcessError returncode)
  | NoSuchFile => raise FileNotFoundError
  | NotPermitted => raise PermissionError
  end.

(** [os.system(command)]: the status comes back as a value. *)
Definition os_system (line : string) : prog Z :=
  emit (Shell line) ;;
  ret (shell_status w line).

(** [self.destroy()]. *)
Definition destroy : prog unit := emit WindowDestroyed.

Definition load_wal_colors : prog pyval :=
  match colors_json w with
  | FileAbsent => ret default_palette
  | FileUnreadable => raise OSError
  | FileInvalid => raise JSONDecodeError
  | FileJson decoded => ret decoded
  end.

(** [self.wal_colors[group][name]]. *)
Definition wal_color (self : PowerMenu) (group name : string) : prog pyval :=
  lift (result_bind (Py.getitem (wal_colors self) group)
                    (fun g => Py.getitem g name)).

(** [apply_theme].  The text goes through [css.encode()] to
    [Gtk.CssProvider.load_from_data]; that either rejects a text is not
    modelled, so the definition is exact for entries they accept, as the
    [#hhhhhh] colours of a valid palette are. *)
Definition apply_theme (self : PowerMenu) : prog unit :=
  bg_color ← wal_color self "special" "background";
  fg_color ← wal_color self "special" "foreground";
  accent_color ← wal_color self "colors" "color4";
  let css := css_text (Py.format bg_color) (Py.format fg_color)
                      (Py.format accent_color) in
  emit (ProviderAdded css).

(** The body of the loop of [fallback_lock]. *)
Definition lock_attempt (cmd : string) : prog loop_exit :=
  try_except (subprocess_run (Py.split cmd) ;; ret Break)
             lock_handled
             (ret Continue).

Definition fallback_lock : prog unit :=
  for_each lock_attempt lock_commands.

Definition on_lock (self : PowerMenu) : prog unit :=
  (if is_hyprland self
   then try_except (subprocess_run ["hyprlock"]) lock_handled fallback_lock
   else fallback_lock) ;;
  destroy.

(** The message area of a [Gtk.MessageDialog] holds its two labels, so
    the foreground colour is converted for the first of them before
    [dialog.run()]. *)
Definition confirm_action (self : PowerMenu) (action message line : string)
  : prog unit :=
  bg_color ← wal_color self "special" "background";
  fg_color ← wal_color self "special" "foreground";
  background ← lift (hex_to_rgba bg_color);
  foreground ← lift (hex_to_rgba fg_color);
  emit (DialogRun action message background foreground) ;;
  let response := dialog_response w in
  (if response =? ResponseType.YES
   then os_system line ;; destroy
   else ret tt) ;;
  emit DialogDestroyed.

Definition on_shutdown (self : PowerMenu) : prog unit :=
  confirm_action self "Shutdown" "Power off the system?" "systemctl poweroff".

Definition on_reboot (self : PowerMenu) : prog unit :=
  confirm_action self "Reboot" "Restart the system?" "systemctl reboot".

Definition on_cancel (self : PowerMenu) : prog unit :=
  destroy.

(** The buttons [setup_ui] builds: label, icon, handler. *)
Definition buttons : list (string * string * (PowerMenu -> prog unit)) :=
  [ ("Lock", "system-lock-screen-symbolic", on_lock);
    ("Reboot", "system-reboot-symbolic", on_reboot);
    ("Shutdown", "system-shutdown-symbolic", on_shutdown);
    ("Cancel", "window-close-symbolic", on_cancel) ].

(** [PowerMenu.__init__].  [setup_ui] in between builds the widgets of
    [buttons] and touches nothing outside the window. *)
Definition PowerMenu_init : prog PowerMenu :=
  let hypr :=
    bool_decide (is_Some (environ w !! "HYPRLAND_INSTANCE_SIGNATURE")) in
  colors ← load_wal_colors;
  let self := mkPowerMenu hypr colors in
  apply_theme self ;;
  ret self.

End Methods.

(** ** Reading a style sheet

    The rule sets of a style sheet, as a CSS reader sees them: for each
    [selector { property: value; ... }] the declarations in order, with
    the blanks around selector, property and value dropped.  Comments,
    quoting and at-rules are outside what [apply_theme] writes and are
    not read. *)

Module Css.

Inductive char_class : Type :=
  | Blank | LBrace | RBrace | Colon | Semicolon | Plain.

Definition classify (a : ascii) : char_class :=
  if Chars.c_isspace a then Blank
  else if Ascii.eqb a "{" then LBrace
  else if Ascii.eqb a "}" then RBrace
  else if Ascii.eqb a ":" then Colon
  else if Ascii.eqb a ";" then Semicolon
  else Plain.

Record decl : Type := mkDecl {
  selector : string;
  property : string;
  value : string
}.

Inductive mode : Type :=
  | InSelector
  | InProperty (sel : string)
  | InValue (sel prop : string).

Definition push (acc pending : string) (a : ascii) : string :=
  acc ++ pending ++ String a "".

(** One pass over the text.  [acc] is the token being read, without its
    leading blanks; [pending] holds the blanks seen since its last
    character, kept only if more of the token follows. *)
Fixpoint scan (m : mode) (acc pending : string) (css : string) : list decl :=
  match css with
  | EmptyString => []
  | String a rest =>
      match classify a, m with
      | Blank, _ =>
          if is_empty acc then scan m acc pending rest
          else scan m acc (pending ++ String a "") rest
      | LBrace, InSelector => scan (InProperty acc) "" "" rest
      | Colon, InProperty sel => scan (InValue sel acc) "" "" rest
      | RBrace, InProperty _ => scan InSelector "" "" rest
      | Semicolon, InProperty sel => scan (InProperty sel) "" "" rest
      | Semicolon, InValue sel prop =>
          mkDecl sel prop acc :: scan (InProperty sel) "" "" rest
      | RBrace, InValue sel prop =>
          mkDecl sel prop acc :: scan InSelector "" "" rest
      | _, _ => scan m (push acc pending a) "" rest
      end
  end.

Definition read (css : string) : list decl := scan InSelector "" "" css.

Definition matches (sel prop : string) (d : decl) : bool :=
  String.eqb (selector d) sel && String.eqb (property d) prop.

(** What the rule sets for [sel] declare for [prop]: the last
    declaration wins. *)
Definition declared (sel prop : string) (css : string) : option string :=
  value <$> last (filter (fun d => matches sel prop d = true) (read css)).

(** The last blank-separated word of a value: the colour of a
    [width style colour] border. *)
Fixpoint last_word_from (cur : string) (s : string) : string :=
  match s with
  | EmptyString => cur
  | String a rest =>
      if Chars.c_isspace a then last_word_from "" rest
      else last_word_from (cur ++ String a "") rest
  end.

Definition last_word (s : string) : string := last_word_from "" s.

Definition border_color (css : string) : option string :=
  last_word <$> declared "window" "border" css.

(** A token of plain characters: not empty, no blank, no brace, colon or
    semicolon. *)
Fixpoint all_plain (s : string) : bool :=
  match s with
  | EmptyString => true
  | String a rest =>
      match classify a with Plain => all_plain rest | _ => false end
  end.

Definition word (s : string) : bool := negb (is_empty s) && all_plain s.

End Css.

(** [shade(colour, factor)], GTK's colour expression: a factor above 1
    lightens the colour, one below 1 darkens it. *)
Definition shade (color factor : string) : string :=
  "shade(" ++ color ++ ", " ++ factor ++ ")".

(** The two factors [apply_theme] writes into its [shade] expressions. *)
Definition lighten_factor : string := "1.1".

Definition darken_factor : string := "0.9".

(** The rule sets [apply_theme] writes, declaration by declaration. *)
Definition theme_decls (bg_color fg_color accent_color : string)
  : list Css.decl :=
  [ Css.mkDecl "*" "font-family" "'Sans'";
    Css.mkDecl "*" "font-size" "14px";
    Css.mkDecl "window" "background-color" bg_color;
    Css.mkDecl "window" "border-radius" "0px";
    Css.mkDecl "window" "border" ("2px solid " ++ accent_color);
    Css.mkDecl "label" "color" fg_color;
    Css.mkDecl "button" "background-color" (shade bg_color lighten_factor);
    Css.mkDecl "button" "color" fg_color;
    Css.mkDecl "button" "border-radius" "0px";
    Css.mkDecl "button" "padding" "12px 24px";
    Css.mkDecl "button" "margin" "0";
    Css.mkDecl "button" "border" "none";
    Css.mkDecl "button" "transition" "all 0.2s ease";
    Css.mkDecl "button:hover" "background-color" accent_color;
    Css.mkDecl "button:hover" "color" bg_color;
    Css.mkDecl "button:active" "background-color" (shade accent_color darken_factor) ].

(** The decimal a factor such as [1.1] denotes, as a fraction. *)
Fixpoint decimal_from (seen_point : bool) (num den : Z) (s : string)
  : option (Z * Z) :=
  match s with
  | EmptyString => Some (num, den)
  | String a rest =>
      if Ascii.eqb a "."
      then (if seen_point then None else decimal_from true num den rest)
      else
        let n := Chars.code a in
        if ((48 <=? n) && (n <=? 57))%N
        then decimal_from seen_point (10 * num + (Z.of_N n - 48))
                          (if seen_point then 10 * den else den) rest
        else None
  end.

Definition decimal (s : string) : option (Z * Z) := decimal_from false 0 1 s.

(** The factor is above one, so [shade] lightens. *)
Definition lightens (factor : string) : Prop :=
  exists num den, decimal factor = Some (num, den) /\ 0 < den < num.

(** The factor is below one, so [shade] darkens. *)
Definition darkens (factor : string) : Prop :=
  exists num den, decimal factor = Some (num, den) /\ 0 <= num < den.

(** ** The palette of the data model

    [background], [foreground] and [accent] are the entries
    [special.background], [special.foreground] and [colors.color4] of the
    cache; a palette is valid when each is a [str] holding [#] and six
    hex digits. *)

Definition palette_entry (wal : pyval) (group name : string) : option string :=
  match result_bind (Py.getitem wal group) (fun g => Py.getitem g name) with
  | Ok (PStr s) => Some s
  | _ => None
  end.

Record valid_palette (wal : pyval) (background foreground accent : string)
  : Prop := mkValidPalette {
  palette_background : palette_entry wal "special" "background" = Some background;
  palette_foreground : palette_entry wal "special" "foreground" = Some foreground;
  palette_accent : palette_entry wal "colors" "color4" = Some accent;
  background_valid : valid_color background = true;
  foreground_valid : valid_color foreground = true;
  accent_valid : valid_color accent = true
}.

(** ** The Lock chain of the specification

    The compositor's own locker first when the compositor signature is
    present, then the session manager, the display manager and the two
    alternate lockers. *)
Definition lock_chain (under_compositor : bool) : list (list string) :=
  ((if under_compositor then [["hyprlock"]] else []) ++
   [ ["loginctl"; "lock-session"];
     ["dm-tool"; "lock"];
     ["i3lock"];
     ["swaylock"] ])%list.

(** A command fails when it exits with a non-zero code or its executable
    is not found. *)
Definition failed (s : spawn) : bool :=
  match s with
  | Exited returncode => negb (returncode =? 0)
  | NoSuchFile => true
  | NotPermitted => false
  end.

(** ** Activating a button *)

(** The handler connected to the button with a given label. *)
Definition handler_of (w : world) (label : string)
  : option (PowerMenu -> prog unit) :=
  match List.find (fun b => String.eqb (fst (fst b)) label) (buttons w) with
  | Some (_, _, handler) => Some handler
  | None => None
  end.

Definition clicked (w : world) (label : string) (self : PowerMenu) : prog unit :=
  match handler_of w label with
  | Some handler => handler self
  | None => ret tt
  end.

(** The cache of the specification's scenario:
    [{"special": {"background": "#000000", "foreground": "#ffffff"},
      "colors": {"color4": "#ff00ff"}}]. *)
Definition scenario_cache : pyval :=
  PDict "{'special': {'background': '#000000', 'foreground': '#ffffff'}, 'colors': {'color4': '#ff00ff'}}"
    (<["special" :=
         PDict "{'background': '#000000', 'foreground': '#ffffff'}"
           (<["background" := PStr "#000000"]>
            (<["foreground" := PStr "#ffffff"]> ∅))]>
     (<["colors" :=
          PDict "{'color4': '#ff00ff'}" (<["color4" := PStr "#ff00ff"]> ∅)]> ∅)).

(** A window built over the default palette, outside the compositor. *)
Definition default_menu : PowerMenu := mkPowerMenu false default_palette.

(** ** Worlds used as concrete inputs *)

(** A world with the colour cache in state [f], no compositor, no locker
    installed, and a user who declines. *)
Definition quiet_world (f : cache_file) : world :=
  mkWorld ∅ f (fun _ => NoSuchFile) (fun _ => 0) ResponseType.NO.

(** [w] with another answer to the confirmation dialog. *)
Definition with_response (w : world) (response : Z) : world :=
  mkWorld (environ w) (colors_json w) (spawn_result w) (shell_status w)
          response.

(** [w] with other statuses for shell commands. *)
Definition with_shell_status (w : world) (status : string -> Z) : world :=
  mkWorld (environ w) (colors_json w) (spawn_result w) status
          (dialog_response w).

(** [w] with other results of spawning. *)
Definition with_spawn (w : world) (results : list string -> spawn) : world :=
  mkWorld (environ w) (colors_json w) results (shell_status w)
          (dialog_response w).

(** [w] inside the compositor. *)
Definition under_hyprland (w : world) : world :=
  mkWorld (<["HYPRLAND_INSTANCE_SIGNATURE" := "0"]> (environ w))
          (colors_json w) (spawn_result w) (shell_status w)
          (dialog_response w).

(** ** Failure modes of the colour cache, as the specification lists them *)

(** The decoded cache has the three entries the theme reads. *)
Definition has_theme_keys (v : pyval) : bool :=
  match result_bind (Py.getitem v "special") (fun g => Py.getitem g "background"),
        result_bind (Py.getitem v "special") (fun g => Py.getitem g "foreground"),
        result_bind (Py.getitem v "colors") (fun g => Py.getitem g "color4")
  with
  | Ok _, Ok _, Ok _ => true
  | _, _, _ => false
  end.

Definition cache_failure (f : cache_file) : Prop :=
  f = FileAbsent \/ f = FileInvalid
  \/ exists v, f = FileJson v /\ has_theme_keys v = false.

(** A cache that decodes but lacks the [colors] group. *)
Definition cache_without_colors : pyval :=
  PDict "{'special': {'background': '#000000', 'foreground': '#ffffff'}}"
    (<["special" :=
         PDict "{'background': '#000000', 'foreground': '#ffffff'}"
           (<["background" := PStr "#000000"]>
            (<["foreground" := PStr "#ffffff"]> ∅))]> ∅).

(** Two command lines are the same. *)
Fixpoint argv_eqb (a b : list string) : bool :=
  match a, b with
  | [], [] => true
  | x :: a', y :: b' => String.eqb x y && argv_eqb a' b'
  | _, _ => false
  end.

(** Inside the compositor, with its locker missing, the session manager
    refusing and the display manager locking the screen. *)
Definition third_locks : world :=
  under_hyprland
    (with_spawn (quiet_world FileAbsent)
       (fun argv =>
          if argv_eqb argv ["loginctl"; "lock-session"] then Exited 1
          else if argv_eqb argv ["dm-tool"; "lock"] then Exited 0
          else NoSuchFile)).

(** A window inside the compositor, over the default palette. *)
Definition compositor_menu : PowerMenu := mkPowerMenu true default_palette.

(** ** The two confirmed actions *)

Inductive power_action : Type := Reboot | Shutdown.

Definition power_handler (w : world) (a : power_action)
  : PowerMenu -> prog unit :=
  match a with
  | Reboot => on_reboot w
  | Shutdown => on_shutdown w
  end.

(** The single fixed command of each. *)
Definition fixed_command (a : power_action) : string :=
  match a with
  | Reboot => "systemctl reboot"
  | Shutdown => "systemctl poweroff"
  end.

Definition other_action (a : power_action) : power_action :=
  match a with
  | Reboot => Shutdown
  | Shutdown => Reboot
  end.

(** [confirm_action] from [dialog.run()] on, the dialog having its
    colours. *)
Definition after_theming (w : world) (action message line : string)
  (background foreground : RGBA) : prog unit :=
  emit (DialogRun action message background foreground) ;;
  (if dialog_response w =? ResponseType.YES
   then os_system w line ;; destroy
   else ret tt) ;;
  emit DialogDestroyed.

(** ** Colours, continued *)

(** The colour six hex digits denote. *)
Definition rgba_of_digits (digits : string) : RGBA :=
  mkRGBA (Py.truediv_255 (byte_at digits 0))
         (Py.truediv_255 (byte_at digits 2))
         (Py.truediv_255 (byte_at digits 4))
         1%float.

(** [n] characters [#]. *)
Fixpoint hashes (n : nat) : string :=
  match n with
  | O => EmptyString
  | S n' => String "#" (hashes n')
  end.

(** An ASCII letter in lower case. *)
Definition lower_char (a : ascii) : ascii :=
  let n := Chars.code a in
  if ((65 <=? n) && (n <=? 90))%N then ascii_of_N (n + 32) else a.

Fixpoint lower (s : string) : string :=
  match s with
  | EmptyString => EmptyString
  | String a rest => String (lower_char a) (lower rest)
  end.

(** ** The main program

    [win = PowerMenu(); win.connect("destroy", Gtk.main_quit);
    win.show_all(); Gtk.main()].  The loop is given the buttons activated,
    each with the world as it is at that moment.  Activating a button runs
    the handler connected to it; an exception a handler raises is reported
    by the toolkit and the loop goes on; once a handler has destroyed the
    window, [Gtk.main_quit] ends the loop. *)
Fixpoint run_clicks (self : PowerMenu) (clicks : list (string * world))
  : list event :=
  match clicks with
  | [] => []
  | (label, w) :: rest =>
      let t := trace (clicked w label self) in
      if window_closed t then t else (t ++ run_clicks self rest)%list
  end.

Definition main (w : world) (clicks : list (string * world)) : prog unit :=
  win ← PowerMenu_init w;
  (run_clicks win clicks, Ok tt).

Definition is_shell (ev : event) : bool :=
  match ev with Shell _ => true | _ => false end.

(** How many events of a trace satisfy a test. *)
Definition count (p : event -> bool) (t : list event) : nat :=
  length (List.filter p t).

(** The cache lets the window be built: it is absent, or it decodes to a
    value with the three entries of the theme. *)
Definition cache_usable (f : cache_file) : bool :=
  match f with
  | FileAbsent => true
  | FileJson v => has_theme_keys v
  | FileUnreadable | FileInvalid => false
  end.

(** The label of the button of a confirmed action. *)
Definition button_label (a : power_action) : string :=
  match a with
  | Reboot => "Reboot"
  | Shutdown => "Shutdown"
  end.

(** A colour written as one word of letters, digits, [#] and [-]: a hex
    colour or a colour name.  Such a word holds nothing a style sheet
    reads as a comment, a string, an escape or a bracket. *)
Definition name_char (a : ascii) : bool :=
  let n := Chars.code a in
  ((48 <=? n) && (n <=? 57) || (65 <=? n) && (n <=? 90)
   || (97 <=? n) && (n <=? 122) || (n =? 35) || (n =? 45))%N.

Fixpoint all_name_chars (s : string) : bool :=
  match s with
  | EmptyString => true
  | String a rest => name_char a && all_name_chars rest
  end.

Definition color_word (s : string) : bool :=
  negb (is_empty s) && all_name_chars s.

(** * Properties *)

Example int16_ff : Py.int16 "ff" = Ok 255.
Proof. reflexivity. Qed.
Example int16_prefix : Py.int16 " 0x_1F " = Ok 31.
Proof. reflexivity. Qed.
Example int16_neg : Py.int16 "-a" = Ok (-10).
Proof. reflexivity. Qed.
Example int16_bad : Py.int16 "f_" = Raise ValueError /\ Py.int16 "" = Raise ValueError
  /\ Py.int16 "0x" = Raise ValueError /\ Py.int16 "1__2" = Raise ValueError.
Proof. repeat split; reflexivity. Qed.
Example split_ex : Py.split "  dm-tool   lock " = ["dm-tool"; "lock"].
Proof. reflexivity. Qed.
Example css_text_length :
  String.length (css_text "#282a36" "#f8f8f2" "#bd93f9") = 772%nat.
Proof. reflexivity. Qed.
Example lock_chain_split :
  Py.split <$> lock_commands
  = [["loginctl"; "lock-session"]; ["dm-tool"; "lock"]; ["i3lock"]; ["swaylock"]].
Proof. reflexivity. Qed.
Example hex_ex : hex_to_rgba (PStr "#282a36") =
  Ok (mkRGBA (Py.truediv_255 40) (Py.truediv_255 42) (Py.truediv_255 54) 1%float).
Proof. reflexivity. Qed.

Section HexToRgba.

Lemma is_hex_cases a : Chars.is_hex a = true -> In a hex_chars.
Proof.
  destruct a as [[] [] [] [] [] [] [] []]; intros H;
    try discriminate H; vm_compute; tauto.
Qed.

Lemma int16_two_digits a b :
  Chars.is_hex a = true -> Chars.is_hex b = true ->
  Py.int16 (String a (String b "")) =
  Ok (16 * default 0 (Chars.hex_value a) + default 0 (Chars.hex_value b)).
Proof.
  intros Ha Hb. apply is_hex_cases in Ha. apply is_hex_cases in Hb.
  unfold hex_chars in *. cbn [list_ascii_of_string In] in Ha, Hb.
  repeat (destruct Ha as [<- | Ha]);
    repeat (destruct Hb as [<- | Hb]);
    first [contradiction | reflexivity].
Qed.

Lemma hex_value_range a d : Chars.hex_value a = Some d -> 0 <= d <= 15.
Proof.
  unfold Chars.hex_value.
  repeat case_match; intros [= <-];
    repeat match goal with
           | H : (_ && _)%bool = true |- _ => apply andb_prop in H as [? ?]
           | H : (_ <=? _)%N = true |- _ => apply N.leb_le in H
           end; lia.
Qed.

Lemma digit_at_range digits i : 0 <= digit_at digits i <= 15.
Proof.
  unfold digit_at. destruct (String.get i digits) as [a|]; [|lia].
  destruct (Chars.hex_value a) as [d|] eqn:E; cbn; [|lia].
  eapply hex_value_range; eauto.
Qed.

Lemma byte_at_range digits i : 0 <= byte_at digits i <= 255.
Proof.
  unfold byte_at.
  pose proof (digit_at_range digits i).
  pose proof (digit_at_range digits (S i)). lia.
Qed.

Lemma truediv_255_table :
  forallb (fun n => in_unit_interval (Py.truediv_255 (Z.of_nat n)))
          (seq 0 256) = true.
Proof. vm_compute. reflexivity. Qed.

Lemma truediv_255_unit n :
  0 <= n <= 255 -> in_unit_interval (Py.truediv_255 n) = true.
Proof.
  intros Hn.
  pose proof (proj1 (forallb_forall _ _) truediv_255_table (Z.to_nat n)) as H.
  cbv beta in H. rewrite Z2Nat.id in H by lia.
  apply H, in_seq. lia.
Qed.

Lemma six_hex_inv digits :
  six_hex digits = true ->
  exists a b c d e f,
    digits = String a (String b (String c (String d (String e (String f "")))))
    /\ Chars.is_hex a = true /\ Chars.is_hex b = true
    /\ Chars.is_hex c = true /\ Chars.is_hex d = true
    /\ Chars.is_hex e = true /\ Chars.is_hex f = true.
Proof.
  unfold six_hex. intros H. apply andb_prop in H as [Hlen Hhex].
  apply Nat.eqb_eq in Hlen.
  do 6 (destruct digits as [|? digits]; [discriminate Hlen|]).
  destruct digits; [|discriminate Hlen].
  cbn [all_hex] in Hhex.
  repeat (apply andb_prop in Hhex as [? Hhex]).
  do 6 eexists. split; [reflexivity|]. tauto.
Qed.

Lemma hex_to_rgba_digits (digits : string) :
  six_hex digits = true ->
  hex_to_rgba (PStr (String "#" digits))
  = Ok (mkRGBA (Py.truediv_255 (byte_at digits 0))
               (Py.truediv_255 (byte_at digits 2))
               (Py.truediv_255 (byte_at digits 4))
               1%float).
Proof.
  intros H. apply six_hex_inv in H
    as (a & b & c & d & e & f & -> & Ha & Hb & Hc & Hd & He & Hf).
  unfold hex_to_rgba. cbn [Py.lstrip_hash result_bind].
  assert (Hs : Py.str_lstrip "#" (String "#"
            (String a (String b (String c (String d (String e (String f "")))))))
          = String a (String b (String c (String d (String e (String f "")))))).
  { cbn. apply is_hex_cases in Ha. unfold hex_chars in Ha.
    cbn [list_ascii_of_string In] in Ha.
    repeat (destruct Ha as [<- | Ha]); first [contradiction | reflexivity]. }
  rewrite Hs. cbn [Py.slice Nat.sub substring result_bind].
  rewrite (int16_two_digits a b Ha Hb). cbn [result_bind].
  rewrite (int16_two_digits c d Hc Hd). cbn [result_bind].
  rewrite (int16_two_digits e f He Hf). reflexivity.
Qed.

Lemma hex_to_rgba_valid (s : string) :
  valid_color s = true -> exists c, hex_to_rgba (PStr s) = Ok c.
Proof.
  destruct s as [|a digits]; [discriminate|].
  destruct (Ascii.eqb_spec a "#") as [-> | Hne].
  - intros H. rewrite (hex_to_rgba_digits digits H). now eexists.
  - destruct a as [[] [] [] [] [] [] [] []]; try discriminate.
    now contradiction Hne.
Qed.

(** C10.  For [#] followed by exactly six hex digits, [hex_to_rgba]
    returns the colour whose red, green and blue are the first, second
    and third two-digit byte divided by 255, each within [0, 1], and
    whose alpha is exactly 1.0. *)
Theorem hex_to_rgba_six_digits (digits : string) :
  six_hex digits = true ->
  exists c : RGBA,
    hex_to_rgba (PStr (String "#" digits)) = Ok c
    /\ red c = (Py.float_of_int (byte_at digits 0) / 255)%float
    /\ green c = (Py.float_of_int (byte_at digits 2) / 255)%float
    /\ blue c = (Py.float_of_int (byte_at digits 4) / 255)%float
    /\ alpha c = 1%float
    /\ in_unit_interval (red c) = true
    /\ in_unit_interval (green c) = true
    /\ in_unit_interval (blue c) = true.
Proof.
  intros H. eexists. split; [exact (hex_to_rgba_digits digits H)|].
  cbn [red green blue alpha].
  repeat split; apply truediv_255_unit, byte_at_range.
Qed.

Lemma hex_to_rgba_six_digits_witness :
  six_hex "bd93f9" = true /\
  exists c : RGBA,
    hex_to_rgba (PStr "#bd93f9") = Ok c
    /\ red c = (Py.float_of_int (byte_at "bd93f9" 0) / 255)%float
    /\ green c = (Py.float_of_int (byte_at "bd93f9" 2) / 255)%float
    /\ blue c = (Py.float_of_int (byte_at "bd93f9" 4) / 255)%float
    /\ alpha c = 1%float
    /\ in_unit_interval (red c) = true
    /\ in_unit_interval (green c) = true
    /\ in_unit_interval (blue c) = true.
Proof.
  split; [reflexivity | apply (hex_to_rgba_six_digits "bd93f9"); reflexivity].
Defined.

End HexToRgba.

Section Theme.

Lemma append_assoc (a b c : string) : (a ++ b) ++ c = a ++ b ++ c.
Proof.
  induction a as [|x a IH]; [reflexivity|].
  change (String x ((a ++ b) ++ c) = String x (a ++ b ++ c)).
  now f_equal.
Qed.

Lemma append_nil_r (a : string) : a ++ "" = a.
Proof.
  induction a as [|x a IH]; [reflexivity|].
  change (String x (a ++ "") = String x a).
  now f_equal.
Qed.

Lemma scan_plain_char a m acc pending rest :
  Css.classify a = Css.Plain ->
  Css.scan m acc pending (String a rest)
  = Css.scan m (Css.push acc pending a) "" rest.
Proof. intros Ha. cbn [Css.scan]. rewrite Ha. now destruct m. Qed.

Lemma scan_plain_cons s : forall a m acc pending rest,
  Css.classify a = Css.Plain -> Css.all_plain s = true ->
  Css.scan m acc pending (String a (s ++ rest))
  = Css.scan m (acc ++ pending ++ String a s) "" rest.
Proof.
  induction s as [|b s IH]; intros a m acc pending rest Ha Hs.
  - apply scan_plain_char, Ha.
  - cbn [Css.all_plain] in Hs.
    destruct (Css.classify b) eqn:Hb; try discriminate Hs.
    rewrite scan_plain_char by exact Ha.
    change (String b s ++ rest) with (String b (s ++ rest)).
    rewrite IH by assumption.
    unfold Css.push. now rewrite !append_assoc.
Qed.

(** A plain word is taken into the token being read as it stands. *)
Lemma scan_word s m acc pending rest :
  Css.word s = true ->
  Css.scan m acc pending (s ++ rest)
  = Css.scan m (acc ++ pending ++ s) "" rest.
Proof.
  unfold Css.word. destruct s as [|a s]; [discriminate|].
  cbn [is_empty negb andb Css.all_plain].
  destruct (Css.classify a) eqn:Ha; try discriminate.
  intros Hs. now apply scan_plain_cons.
Qed.

(** The same, at the end of the literal text before a hole of the
    template. *)
Lemma scan_hole s m acc pending rest :
  Css.word s = true ->
  Css.scan m acc pending ("" ++ s ++ rest)
  = Css.scan m (acc ++ pending ++ s) "" rest.
Proof. exact (scan_word s m acc pending rest). Qed.

Lemma read_css_text bg fg ac :
  Css.word bg = true -> Css.word fg = true -> Css.word ac = true ->
  Css.read (css_text bg fg ac) = theme_decls bg fg ac.
Proof.
  intros Hbg Hfg Hac. unfold Css.read, css_text.
  repeat (simpl;
          first [ rewrite (scan_hole bg) by assumption
                | rewrite (scan_hole fg) by assumption
                | rewrite (scan_hole ac) by assumption ]).
  simpl. unfold theme_decls, shade, Css.push. rewrite !append_assoc.
  reflexivity.
Qed.

Lemma hex_plain a : Chars.is_hex a = true -> Css.classify a = Css.Plain.
Proof.
  intros Ha. apply is_hex_cases in Ha. unfold hex_chars in Ha.
  cbn [list_ascii_of_string In] in Ha.
  repeat (destruct Ha as [<- | Ha]); first [contradiction | reflexivity].
Qed.

Lemma all_hex_plain s : all_hex s = true -> Css.all_plain s = true.
Proof.
  induction s as [|a s IH]; [reflexivity|].
  cbn [all_hex Css.all_plain]. intros H. apply andb_prop in H as [Ha Hs].
  rewrite (hex_plain a Ha). auto.
Qed.

(** A colour of the data model is one plain word of the style sheet. *)
Lemma valid_color_word s : valid_color s = true -> Css.word s = true.
Proof.
  destruct s as [|a s]; [discriminate|].
  unfold valid_color, six_hex.
  destruct (Ascii.eqb_spec a "#") as [-> | Hne].
  - intros H. apply andb_prop in H as [_ H].
    unfold Css.word. cbn. now apply all_hex_plain.
  - destruct a as [[] [] [] [] [] [] [] []]; try discriminate.
    now contradiction Hne.
Qed.

Lemma plain_not_space a : Css.classify a = Css.Plain -> Chars.c_isspace a = false.
Proof. unfold Css.classify. now destruct (Chars.c_isspace a). Qed.

Lemma last_word_from_plain s : forall cur rest,
  Css.all_plain s = true ->
  Css.last_word_from cur (s ++ rest) = Css.last_word_from (cur ++ s) rest.
Proof.
  induction s as [|a s IH]; intros cur rest Hs.
  - now rewrite append_nil_r.
  - cbn [Css.all_plain] in Hs.
    destruct (Css.classify a) eqn:Ha; try discriminate Hs.
    change (String a s ++ rest) with (String a (s ++ rest)).
    cbn [Css.last_word_from]. rewrite (plain_not_space a Ha).
    rewrite IH by assumption. now rewrite append_assoc.
Qed.

Lemma border_color_word lead s :
  Css.word s = true ->
  Css.last_word_from lead s = lead ++ s.
Proof.
  intros H. unfold Css.word in H. apply andb_prop in H as [_ H].
  rewrite <- (append_nil_r s) at 1.
  now rewrite last_word_from_plain.
Qed.

Lemma palette_entry_color (self : PowerMenu) group name s :
  palette_entry (wal_colors self) group name = Some s ->
  wal_color self group name = ret (PStr s).
Proof.
  unfold palette_entry, wal_color, lift, ret.
  destruct (result_bind _ _) as [[]|]; intros [= <-] || discriminate.
  reflexivity.
Qed.

(** With a valid palette [apply_theme] installs the template filled with
    the three colours, and a reader of that text finds the declarations
    of [theme_decls]. *)
Lemma apply_theme_valid (self : PowerMenu) bg fg ac :
  valid_palette (wal_colors self) bg fg ac ->
  apply_theme self = ([ProviderAdded (css_text bg fg ac)], Ok tt)
  /\ Css.read (css_text bg fg ac) = theme_decls bg fg ac.
Proof.
  intros [Hb Hf Ha Vb Vf Va]. split.
  - unfold apply_theme.
    rewrite (palette_entry_color self _ _ _ Hb),
            (palette_entry_color self _ _ _ Hf),
            (palette_entry_color self _ _ _ Ha).
    reflexivity.
  - apply read_css_text; now apply valid_color_word.
Qed.

Lemma border_last_word ac :
  Css.word ac = true -> Css.last_word ("2px solid " ++ ac) = ac.
Proof.
  intros H.
  change (Css.last_word ("2px solid " ++ ac)) with (Css.last_word_from "" ac).
  now rewrite border_color_word.
Qed.

Lemma default_palette_valid :
  valid_palette default_palette "#282a36" "#f8f8f2" "#bd93f9".
Proof. split; reflexivity. Qed.

Lemma scenario_cache_valid :
  valid_palette scenario_cache "#000000" "#ffffff" "#ff00ff".
Proof. split; reflexivity. Qed.

Lemma theme_border_color bg fg ac :
  Css.word bg = true -> Css.word fg = true -> Css.word ac = true ->
  Css.border_color (css_text bg fg ac) = Some ac.
Proof.
  intros Hb Hf Ha. unfold Css.border_color, Css.declared.
  rewrite read_css_text by assumption.
  change (Some (Css.last_word ("2px solid " ++ ac)) = Some ac).
  now rewrite border_last_word.
Qed.

Lemma theme_declared bg fg ac sel prop :
  Css.word bg = true -> Css.word fg = true -> Css.word ac = true ->
  Css.declared sel prop (css_text bg fg ac)
  = Css.value <$>
    last (filter (fun d => Css.matches sel prop d = true) (theme_decls bg fg ac)).
Proof.
  intros Hb Hf Ha. unfold Css.declared. now rewrite read_css_text.
Qed.

(** C6.  For every valid palette the style sheet [apply_theme] installs
    has the accent colour as the colour of the window border and the
    foreground colour as the colour of labels; and a window built from the
    cache of the scenario (background [#000000], foreground [#ffffff],
    color4 [#ff00ff]) has border colour [#ff00ff] and label colour
    [#ffffff]. *)
Theorem apply_theme_border_and_label :
  (forall (self : PowerMenu) (bg fg ac : string),
      valid_palette (wal_colors self) bg fg ac ->
      exists css,
        apply_theme self = ([ProviderAdded css], Ok tt)
        /\ Css.border_color css = Some ac
        /\ Css.declared "label" "color" css = Some fg)
  /\ (forall w : world,
        colors_json w = FileJson scenario_cache ->
        exists self css,
          PowerMenu_init w = ([ProviderAdded css], Ok self)
          /\ Css.border_color css = Some "#ff00ff"
          /\ Css.declared "label" "color" css = Some "#ffffff").
Proof.
  assert (General : forall (self : PowerMenu) (bg fg ac : string),
      valid_palette (wal_colors self) bg fg ac ->
      exists css,
        apply_theme self = ([ProviderAdded css], Ok tt)
        /\ Css.border_color css = Some ac
        /\ Css.declared "label" "color" css = Some fg).
  { intros self bg fg ac V.
    destruct (apply_theme_valid self bg fg ac V) as [Happly _].
    destruct V as [_ _ _ Vb Vf Va].
    apply valid_color_word in Vb, Vf, Va.
    exists (css_text bg fg ac). split; [exact Happly|]. split.
    - now apply theme_border_color.
    - now rewrite theme_declared. }
  split; [exact General|].
  intros w Hw.
  set (self := mkPowerMenu
     (bool_decide (is_Some (environ w !! "HYPRLAND_INSTANCE_SIGNATURE")))
     scenario_cache).
  destruct (General self _ _ _ scenario_cache_valid) as (css & Happly & Hb & Hl).
  exists self, css. split; [|now split].
  unfold PowerMenu_init, load_wal_colors. rewrite Hw.
  change (apply_theme self ≫= (fun _ => ret self) = ([ProviderAdded css], Ok self)).
  now rewrite Happly.
Qed.

Lemma apply_theme_border_and_label_witness :
  exists css,
    apply_theme default_menu = ([ProviderAdded css], Ok tt)
    /\ Css.border_color css = Some "#bd93f9"
    /\ Css.declared "label" "color" css = Some "#f8f8f2".
Proof.
  apply (proj1 apply_theme_border_and_label default_menu
                 "#282a36" "#f8f8f2" "#bd93f9").
  split; reflexivity.
Defined.

Lemma factors_fixed : lightens lighten_factor /\ darkens darken_factor.
Proof.
  split; [exists 11, 10 | exists 9, 10]; (split; [reflexivity | lia]).
Qed.

(** C9.  The style sheet is a function of the three colours of the
    palette alone, and installing it is all [apply_theme] does.  It sets
    the window border to the accent colour, the button background to the
    background colour shaded by the fixed lightening factor, the hover
    state to the accent colour as background with the background colour as
    text, and the pressed state to the accent colour shaded by the fixed
    darkening factor. *)
Theorem apply_theme_rules (self : PowerMenu) (bg fg ac : string) :
  valid_palette (wal_colors self) bg fg ac ->
  let css := css_text bg fg ac in
  apply_theme self = ([ProviderAdded css], Ok tt)
  /\ Css.border_color css = Some ac
  /\ Css.declared "button" "background-color" css
     = Some (shade bg lighten_factor)
  /\ lightens lighten_factor
  /\ Css.declared "button:hover" "background-color" css = Some ac
  /\ Css.declared "button:hover" "color" css = Some bg
  /\ Css.declared "button:active" "background-color" css
     = Some (shade ac darken_factor)
  /\ darkens darken_factor.
Proof.
  intros V css.
  destruct (apply_theme_valid self bg fg ac V) as [Happly _].
  destruct V as [_ _ _ Vb Vf Va].
  apply valid_color_word in Vb, Vf, Va.
  pose proof factors_fixed as [Hup Hdown].
  subst css. rewrite !theme_declared by assumption.
  repeat split; try assumption; try reflexivity.
  now apply theme_border_color.
Qed.

Lemma apply_theme_rules_witness :
  let css := css_text "#282a36" "#f8f8f2" "#bd93f9" in
  apply_theme default_menu = ([ProviderAdded css], Ok tt)
  /\ Css.border_color css = Some "#bd93f9"
  /\ Css.declared "button" "background-color" css
     = Some (shade "#282a36" lighten_factor)
  /\ lightens lighten_factor
  /\ Css.declared "button:hover" "background-color" css = Some "#bd93f9"
  /\ Css.declared "button:hover" "color" css = Some "#282a36"
  /\ Css.declared "button:active" "background-color" css
     = Some (shade "#bd93f9" darken_factor)
  /\ darkens darken_factor.
Proof.
  apply (apply_theme_rules default_menu "#282a36" "#f8f8f2" "#bd93f9").
  split; reflexivity.
Defined.

End Theme.

Section Effects.

Lemma mbind_ok {A B : Type} (t : list event) (a : A) (k : A -> prog B) :
  ((t, Ok a) : prog A) ≫= k = ((t ++ trace (k a))%list, outcome (k a)).
Proof. unfold mbind, prog_bind, bind, trace, outcome. now destruct (k a). Qed.

Lemma mbind_raise {A B : Type} (t : list event) (e : exn) (k : A -> prog B) :
  ((t, Raise e) : prog A) ≫= k = (t, Raise e).
Proof. reflexivity. Qed.

Lemma mbind_ret_l {A B : Type} (a : A) (k : A -> prog B) :
  (([], Ok a) : prog A) ≫= k = k a.
Proof. unfold mbind, prog_bind, bind. now destruct (k a). Qed.

Lemma commands_app (t u : list event) :
  commands (t ++ u)%list = (commands t ++ commands u)%list.
Proof. apply omap_app. Qed.

Lemma commands_spawned (l : list (list string)) :
  commands (Spawned <$> l) = Argv <$> l.
Proof. induction l as [|x l IH]; [reflexivity|]. cbn. now f_equal. Qed.

Lemma window_closed_spawned (l : list (list string)) :
  window_closed (Spawned <$> l) = false.
Proof. induction l as [|x l IH]; [reflexivity | exact IH]. Qed.

Lemma dialog_shown_spawned (l : list (list string)) :
  dialog_shown (Spawned <$> l) = false.
Proof. induction l as [|x l IH]; [reflexivity | exact IH]. Qed.

End Effects.

Section Lock.

Variable w : world.

Lemma subprocess_run_ok argv :
  spawn_result w argv = Exited 0 ->
  subprocess_run w argv = ([Spawned argv], Ok tt).
Proof. intros H. unfold subprocess_run. now rewrite H. Qed.

Lemma subprocess_run_failed argv :
  failed (spawn_result w argv) = true ->
  exists e, subprocess_run w argv = ([Spawned argv], Raise e)
            /\ lock_handled e = true.
Proof.
  unfold subprocess_run, failed.
  destruct (spawn_result w argv) as [code| |]; try discriminate.
  - destruct (code =? 0); [discriminate|].
    intros _. now exists (CalledProcessError code).
  - intros _. now exists FileNotFoundError.
Qed.

Lemma lock_attempt_ok cmd :
  spawn_result w (Py.split cmd) = Exited 0 ->
  lock_attempt w cmd = ([Spawned (Py.split cmd)], Ok Break).
Proof.
  intros H. unfold lock_attempt. now rewrite (subprocess_run_ok _ H).
Qed.

Lemma lock_attempt_failed cmd :
  failed (spawn_result w (Py.split cmd)) = true ->
  lock_attempt w cmd = ([Spawned (Py.split cmd)], Ok Continue).
Proof.
  intros H. destruct (subprocess_run_failed _ H) as (e & Hrun & He).
  unfold lock_attempt. rewrite Hrun, mbind_raise. cbn. now rewrite He.
Qed.

Lemma lock_attempt_denied cmd :
  spawn_result w (Py.split cmd) = NotPermitted ->
  lock_attempt w cmd = ([Spawned (Py.split cmd)], Raise PermissionError).
Proof. intros H. unfold lock_attempt, subprocess_run. now rewrite H. Qed.

(** The loop stops after the first command that succeeds. *)
Lemma for_each_first_success cmds : forall n argv,
  (Py.split <$> cmds) !! n = Some argv ->
  (forall i a, (i < n)%nat -> (Py.split <$> cmds) !! i = Some a ->
               failed (spawn_result w a) = true) ->
  spawn_result w argv = Exited 0 ->
  for_each (lock_attempt w) cmds
  = (Spawned <$> take (S n) (Py.split <$> cmds), Ok tt).
Proof.
  induction cmds as [|cmd cmds IH]; intros n argv Hn Hfail Hok;
    [discriminate|].
  destruct n as [|n].
  - injection Hn as <-. cbn [for_each].
    now rewrite (lock_attempt_ok _ Hok), mbind_ok.
  - cbn [for_each].
    rewrite (lock_attempt_failed cmd), mbind_ok
      by (apply (Hfail 0%nat); [lia | reflexivity]).
    rewrite (IH n argv Hn); [reflexivity | | exact Hok].
    intros i a Hi Ha. apply (Hfail (S i)); [lia | exact Ha].
Qed.

(** When every command fails the loop runs them all and ends quietly. *)
Lemma for_each_all_failed cmds :
  (forall a, a ∈ Py.split <$> cmds -> failed (spawn_result w a) = true) ->
  for_each (lock_attempt w) cmds = (Spawned <$> (Py.split <$> cmds), Ok tt).
Proof.
  induction cmds as [|cmd cmds IH]; intros Hfail; [reflexivity|].
  cbn [for_each].
  rewrite (lock_attempt_failed cmd), mbind_ok by (apply Hfail; left).
  rewrite IH; [reflexivity|].
  intros a Ha. apply Hfail. now right.
Qed.

(** Whatever the commands do, the loop runs a prefix of its list. *)
Lemma for_each_prefix cmds :
  exists k, trace (for_each (lock_attempt w) cmds)
            = Spawned <$> take k (Py.split <$> cmds).
Proof.
  induction cmds as [|cmd cmds [k IH]]; [now exists 0%nat|].
  cbn [for_each].
  destruct (spawn_result w (Py.split cmd)) as [code| |] eqn:E.
  - destruct (Z.eqb_spec code 0) as [-> | Hne].
    + exists 1%nat. now rewrite (lock_attempt_ok _ E), mbind_ok.
    + exists (S k). rewrite (lock_attempt_failed cmd), mbind_ok.
      * cbn. now rewrite IH.
      * rewrite E. cbn. now apply negb_true_iff, Z.eqb_neq.
  - exists (S k). rewrite (lock_attempt_failed cmd), mbind_ok.
    + cbn. now rewrite IH.
    + now rewrite E.
  - exists 1%nat. now rewrite (lock_attempt_denied _ E), mbind_raise.
Qed.

Lemma lock_chain_fallback : Py.split <$> lock_commands = lock_chain false.
Proof. reflexivity. Qed.

Lemma lock_chain_compositor : lock_chain true = ["hyprlock"] :: lock_chain false.
Proof. reflexivity. Qed.

Lemma on_lock_after (self : PowerMenu) (t : list event) :
  (if is_hyprland self
   then try_except (subprocess_run w ["hyprlock"]) lock_handled (fallback_lock w)
   else fallback_lock w) = (t, Ok tt) ->
  on_lock w self = ((t ++ [WindowDestroyed])%list, Ok tt).
Proof. intros H. unfold on_lock. now rewrite H, mbind_ok. Qed.

Lemma on_lock_stops (self : PowerMenu) (n : nat) (argv : list string) :
  lock_chain (is_hyprland self) !! n = Some argv ->
  (forall i a, (i < n)%nat -> lock_chain (is_hyprland self) !! i = Some a ->
               failed (spawn_result w a) = true) ->
  spawn_result w argv = Exited 0 ->
  on_lock w self
  = ((Spawned <$> take (S n) (lock_chain (is_hyprland self)))
       ++ [WindowDestroyed], Ok tt)%list.
Proof.
  intros Hn Hfail Hok. apply on_lock_after.
  destruct (is_hyprland self).
  - rewrite lock_chain_compositor in *. destruct n as [|n].
    + injection Hn as <-. now rewrite (subprocess_run_ok _ Hok).
    + destruct (subprocess_run_failed ["hyprlock"]) as (e & Hrun & He).
      { apply (Hfail 0%nat); [lia | reflexivity]. }
      rewrite Hrun. cbn [try_except]. rewrite He.
      unfold fallback_lock.
      rewrite (for_each_first_success lock_commands n argv);
        [reflexivity | exact Hn | | exact Hok].
      intros i a Hi Ha. apply (Hfail (S i)); [lia | exact Ha].
  - unfold fallback_lock.
    now rewrite (for_each_first_success lock_commands n argv).
Qed.

Lemma on_lock_exhausted (self : PowerMenu) :
  (forall a, a ∈ lock_chain (is_hyprland self) ->
             failed (spawn_result w a) = true) ->
  on_lock w self
  = ((Spawned <$> lock_chain (is_hyprland self)) ++ [WindowDestroyed], Ok tt)%list.
Proof.
  intros Hfail. apply on_lock_after.
  destruct (is_hyprland self).
  - rewrite lock_chain_compositor in *.
    destruct (subprocess_run_failed ["hyprlock"]) as (e & Hrun & He).
    { apply Hfail. left. }
    rewrite Hrun. cbn [try_except]. rewrite He.
    unfold fallback_lock. rewrite for_each_all_failed; [reflexivity|].
    intros a Ha. apply Hfail. now right.
  - unfold fallback_lock. now rewrite for_each_all_failed.
Qed.

(** C1.  When the first [n] commands of the Lock chain fail and the next
    one succeeds, [on_lock] invokes exactly those [n + 1] commands, in the
    order of the chain, none after them, and closes the window. *)
Theorem on_lock_first_success (self : PowerMenu) (n : nat) (argv : list string) :
  lock_chain (is_hyprland self) !! n = Some argv ->
  (forall i a, (i < n)%nat -> lock_chain (is_hyprland self) !! i = Some a ->
               failed (spawn_result w a) = true) ->
  spawn_result w argv = Exited 0 ->
  commands (trace (on_lock w self))
  = Argv <$> take (S n) (lock_chain (is_hyprland self))
  /\ length (commands (trace (on_lock w self))) = S n
  /\ trace (on_lock w self)
     = ((Spawned <$> take (S n) (lock_chain (is_hyprland self)))
          ++ [WindowDestroyed])%list
  /\ outcome (on_lock w self) = Ok tt.
Proof.
  intros Hn Hfail Hok.
  rewrite (on_lock_stops self n argv Hn Hfail Hok).
  cbn [trace outcome fst snd].
  rewrite commands_app, commands_spawned, app_nil_r.
  repeat split.
  rewrite length_fmap, length_take.
  apply lookup_lt_Some in Hn. lia.
Qed.

(** C3.  When every command of the Lock chain fails, [on_lock] has tried
    them all, raises nothing, closes the window and shows no dialog. *)
Theorem on_lock_all_failed (self : PowerMenu) :
  (forall a, a ∈ lock_chain (is_hyprland self) ->
             failed (spawn_result w a) = true) ->
  outcome (on_lock w self) = Ok tt
  /\ window_closed (trace (on_lock w self)) = true
  /\ dialog_shown (trace (on_lock w self)) = false
  /\ commands (trace (on_lock w self)) = Argv <$> lock_chain (is_hyprland self).
Proof.
  intros Hfail. rewrite (on_lock_exhausted self Hfail).
  cbn [trace outcome fst snd].
  unfold window_closed, dialog_shown.
  rewrite !existsb_app, commands_app, commands_spawned, app_nil_r.
  fold (window_closed (Spawned <$> lock_chain (is_hyprland self))).
  fold (dialog_shown (Spawned <$> lock_chain (is_hyprland self))).
  rewrite window_closed_spawned, dialog_shown_spawned.
  repeat split.
Qed.

Lemma init_is_hyprland (t : list event) (self : PowerMenu) :
  PowerMenu_init w = (t, Ok self) ->
  is_hyprland self
  = bool_decide (is_Some (environ w !! "HYPRLAND_INSTANCE_SIGNATURE")).
Proof.
  unfold PowerMenu_init.
  destruct (load_wal_colors w) as [t0 [colors|e]]; [|discriminate].
  rewrite mbind_ok.
  destruct (apply_theme _) as [t1 [[]|e]]; [|discriminate].
  rewrite mbind_ok. cbn. now intros [= _ <-].
Qed.

End Lock.

Lemma on_lock_first_success_witness :
  commands (trace (on_lock third_locks compositor_menu))
  = [Argv ["hyprlock"]; Argv ["loginctl"; "lock-session"]; Argv ["dm-tool"; "lock"]]
  /\ length (commands (trace (on_lock third_locks compositor_menu))) = 3%nat
  /\ trace (on_lock third_locks compositor_menu)
     = [Spawned ["hyprlock"]; Spawned ["loginctl"; "lock-session"];
        Spawned ["dm-tool"; "lock"]; WindowDestroyed]
  /\ outcome (on_lock third_locks compositor_menu) = Ok tt.
Proof.
  apply (on_lock_first_success third_locks compositor_menu 2 ["dm-tool"; "lock"]).
  - reflexivity.
  - intros [|[|i]] a Hi Ha.
    + injection Ha as <-. reflexivity.
    + injection Ha as <-. reflexivity.
    + lia.
  - reflexivity.
Defined.

Lemma on_lock_all_failed_witness :
  outcome (on_lock (quiet_world FileAbsent) compositor_menu) = Ok tt
  /\ window_closed (trace (on_lock (quiet_world FileAbsent) compositor_menu)) = true
  /\ dialog_shown (trace (on_lock (quiet_world FileAbsent) compositor_menu)) = false
  /\ commands (trace (on_lock (quiet_world FileAbsent) compositor_menu))
     = Argv <$> lock_chain true.
Proof.
  apply (on_lock_all_failed (quiet_world FileAbsent) compositor_menu).
  intros a _. reflexivity.
Defined.

Section Confirm.

Variable w : world.
Variable self : PowerMenu.

(** Either colouring the dialog raises before anything happens, or the
    dialog runs. *)
Lemma confirm_action_cases (action message line : string) :
  (exists e, confirm_action w self action message line = ([], Raise e))
  \/ (exists background foreground,
        confirm_action w self action message line
        = after_theming w action message line background foreground).
Proof.
  unfold confirm_action, after_theming, wal_color, lift.
  destruct (result_bind (Py.getitem (wal_colors self) "special")
                        (fun g => Py.getitem g "background")) as [bg|e];
    [rewrite mbind_ret_l | left; now exists e].
  destruct (result_bind (Py.getitem (wal_colors self) "special")
                        (fun g => Py.getitem g "foreground")) as [fg|e];
    [rewrite mbind_ret_l | left; now exists e].
  destruct (hex_to_rgba bg) as [background|e];
    [rewrite mbind_ret_l | left; now exists e].
  destruct (hex_to_rgba fg) as [foreground|e];
    [rewrite mbind_ret_l | left; now exists e].
  right. now exists background, foreground.
Qed.

Lemma after_theming_yes (action message line : string) (b f : RGBA) :
  dialog_response w = ResponseType.YES ->
  after_theming w action message line b f
  = ([DialogRun action message b f; Shell line; WindowDestroyed;
      DialogDestroyed], Ok tt).
Proof. intros H. unfold after_theming. now rewrite H. Qed.

Lemma after_theming_declined (action message line : string) (b f : RGBA) :
  dialog_response w <> ResponseType.YES ->
  after_theming w action message line b f
  = ([DialogRun action message b f; DialogDestroyed], Ok tt).
Proof.
  intros H. apply Z.eqb_neq in H. unfold after_theming. now rewrite H.
Qed.

Lemma power_handler_confirm (a : power_action) :
  exists action message,
    power_handler w a self
    = confirm_action w self action message (fixed_command a).
Proof. destruct a; do 2 eexists; reflexivity. Qed.

(** A handler whose dialog was shown got past the colouring. *)
Lemma power_handler_shown (a : power_action) :
  dialog_shown (trace (power_handler w a self)) = true ->
  exists action message b f,
    power_handler w a self
    = after_theming w action message (fixed_command a) b f.
Proof.
  destruct (power_handler_confirm a) as (action & message & ->).
  destruct (confirm_action_cases action message (fixed_command a))
    as [[e ->] | (b & f & ->)]; [discriminate|].
  intros _. now exists action, message, b, f.
Qed.

(** With a valid palette the dialog is shown. *)
Lemma valid_palette_shown (a : power_action) (bg fg ac : string) :
  valid_palette (wal_colors self) bg fg ac ->
  dialog_shown (trace (power_handler w a self)) = true.
Proof.
  intros [Hb Hf _ Vb Vf _].
  destruct (hex_to_rgba_valid bg Vb) as [b Hbg].
  destruct (hex_to_rgba_valid fg Vf) as [f Hfg].
  destruct (power_handler_confirm a) as (action & message & ->).
  unfold confirm_action.
  rewrite (palette_entry_color self _ _ _ Hb), (palette_entry_color self _ _ _ Hf).
  unfold ret. rewrite !mbind_ret_l. rewrite Hbg, Hfg. unfold lift.
  rewrite !mbind_ret_l.
  destruct (dialog_response w =? ResponseType.YES); reflexivity.
Qed.

(** With a valid palette the dialog gets the two colours of the palette
    and runs. *)
Lemma confirm_action_valid (bg fg ac : string) :
  valid_palette (wal_colors self) bg fg ac ->
  exists b f,
    hex_to_rgba (PStr bg) = Ok b /\ hex_to_rgba (PStr fg) = Ok f
    /\ forall action message line,
         confirm_action w self action message line
         = after_theming w action message line b f.
Proof.
  intros [Hb Hf _ Vb Vf _].
  destruct (hex_to_rgba_valid bg Vb) as [b Hbg].
  destruct (hex_to_rgba_valid fg Vf) as [f Hfg].
  exists b, f. repeat split; [exact Hbg | exact Hfg|].
  intros action message line. unfold confirm_action.
  rewrite (palette_entry_color self _ _ _ Hb), (palette_entry_color self _ _ _ Hf).
  unfold ret. rewrite !mbind_ret_l. rewrite Hbg, Hfg. unfold lift.
  now rewrite !mbind_ret_l.
Qed.

End Confirm.

(** C4.  For Reboot, with the dialog coloured from a valid palette: a
    Yes answer invokes [systemctl reboot] exactly once, after the dialog
    and before the window is destroyed, and never the shutdown command; any
    other answer invokes no command and leaves the window open, only the
    dialog being destroyed.  Shutdown does the same with
    [systemctl poweroff]. *)
Theorem confirm_reboot_shutdown (w : world) (self : PowerMenu)
  (bg fg ac : string) :
  valid_palette (wal_colors self) bg fg ac ->
  exists b f,
    hex_to_rgba (PStr bg) = Ok b /\ hex_to_rgba (PStr fg) = Ok f
    /\ (dialog_response w = ResponseType.YES ->
        (on_reboot w self
         = ([DialogRun "Reboot" "Restart the system?" b f;
             Shell "systemctl reboot"; WindowDestroyed; DialogDestroyed], Ok tt)
         /\ commands (trace (on_reboot w self)) = [ShellLine "systemctl reboot"]
         /\ (ShellLine "systemctl poweroff" ∉ commands (trace (on_reboot w self)))
         /\ window_closed (trace (on_reboot w self)) = true)
        /\ (on_shutdown w self
            = ([DialogRun "Shutdown" "Power off the system?" b f;
                Shell "systemctl poweroff"; WindowDestroyed; DialogDestroyed],
               Ok tt)
            /\ commands (trace (on_shutdown w self))
               = [ShellLine "systemctl poweroff"]
            /\ (ShellLine "systemctl reboot"
                  ∉ commands (trace (on_shutdown w self)))
            /\ window_closed (trace (on_shutdown w self)) = true))
    /\ (dialog_response w <> ResponseType.YES ->
        (on_reboot w self
         = ([DialogRun "Reboot" "Restart the system?" b f; DialogDestroyed],
            Ok tt)
         /\ commands (trace (on_reboot w self)) = []
         /\ window_closed (trace (on_reboot w self)) = false
         /\ dialog_closed (trace (on_reboot w self)) = true)
        /\ (on_shutdown w self
            = ([DialogRun "Shutdown" "Power off the system?" b f;
                DialogDestroyed], Ok tt)
            /\ commands (trace (on_shutdown w self)) = []
            /\ window_closed (trace (on_shutdown w self)) = false
            /\ dialog_closed (trace (on_shutdown w self)) = true)).
Proof.
  intros V.
  destruct (confirm_action_valid w self bg fg ac V) as (b & f & Hb & Hf & Hrun).
  exists b, f. split; [exact Hb|]. split; [exact Hf|].
  unfold on_reboot, on_shutdown. rewrite !Hrun.
  split; intros Hr.
  - rewrite !(after_theming_yes w _ _ _ b f Hr). cbn.
    repeat split; intros Hin; apply list_elem_of_singleton in Hin;
      discriminate Hin.
  - rewrite !(after_theming_declined w _ _ _ b f Hr). repeat split.
Qed.

Lemma confirm_reboot_shutdown_witness :
  ((commands (trace (on_reboot (with_response (quiet_world FileAbsent)
                                               ResponseType.YES) default_menu))
    = [ShellLine "systemctl reboot"]
    /\ window_closed (trace (on_reboot (with_response (quiet_world FileAbsent)
                                                       ResponseType.YES)
                                        default_menu)) = true)
   /\ (commands (trace (on_shutdown (with_response (quiet_world FileAbsent)
                                                    ResponseType.YES)
                                     default_menu))
       = [ShellLine "systemctl poweroff"]
       /\ window_closed (trace (on_shutdown (with_response (quiet_world FileAbsent)
                                                            ResponseType.YES)
                                             default_menu)) = true))
  /\ ((commands (trace (on_reboot (quiet_world FileAbsent) default_menu)) = []
       /\ window_closed (trace (on_reboot (quiet_world FileAbsent) default_menu))
          = false
       /\ dialog_closed (trace (on_reboot (quiet_world FileAbsent) default_menu))
          = true)
      /\ (commands (trace (on_shutdown (quiet_world FileAbsent) default_menu)) = []
          /\ window_closed (trace (on_shutdown (quiet_world FileAbsent)
                                               default_menu)) = false
          /\ dialog_closed (trace (on_shutdown (quiet_world FileAbsent)
                                               default_menu)) = true)).
Proof.
  destruct (confirm_reboot_shutdown
              (with_response (quiet_world FileAbsent) ResponseType.YES)
              default_menu "#282a36" "#f8f8f2" "#bd93f9"
              ltac:(split; reflexivity))
    as (b & f & _ & _ & Hyes & _).
  destruct (confirm_reboot_shutdown
              (quiet_world FileAbsent)
              default_menu "#282a36" "#f8f8f2" "#bd93f9"
              ltac:(split; reflexivity))
    as (b' & f' & _ & _ & _ & Hno).
  destruct (Hyes eq_refl) as [(_ & Hrc & _ & Hrw) (_ & Hsc & _ & Hsw)].
  destruct (Hno ltac:(discriminate)) as [(_ & Hr) (_ & Hs)].
  repeat split; first [exact Hrc | exact Hrw | exact Hsc | exact Hsw
                      | apply Hr | apply Hs].
Defined.

(** C7.  After a Yes answer, with the dialog coloured from a valid
    palette, the one fixed command is run and its status dropped:
    whatever statuses shell commands return, Reboot and Shutdown do what
    they do with any other status, run their command, raise nothing and
    close the window. *)
Theorem confirmed_command_unchecked (w : world) (self : PowerMenu)
  (bg fg ac : string) (status : string -> Z) :
  valid_palette (wal_colors self) bg fg ac ->
  dialog_response w = ResponseType.YES ->
  let w' := with_shell_status w status in
  exists b f,
    (on_reboot w' self = on_reboot w self
     /\ on_reboot w' self
        = ([DialogRun "Reboot" "Restart the system?" b f;
            Shell "systemctl reboot"; WindowDestroyed; DialogDestroyed], Ok tt)
     /\ commands (trace (on_reboot w' self)) = [ShellLine "systemctl reboot"]
     /\ outcome (on_reboot w' self) = Ok tt
     /\ window_closed (trace (on_reboot w' self)) = true)
    /\ (on_shutdown w' self = on_shutdown w self
        /\ on_shutdown w' self
           = ([DialogRun "Shutdown" "Power off the system?" b f;
               Shell "systemctl poweroff"; WindowDestroyed; DialogDestroyed],
              Ok tt)
        /\ commands (trace (on_shutdown w' self))
           = [ShellLine "systemctl poweroff"]
        /\ outcome (on_shutdown w' self) = Ok tt
        /\ window_closed (trace (on_shutdown w' self)) = true).
Proof.
  intros V Hyes w'.
  destruct (confirm_action_valid w' self bg fg ac V) as (b & f & _ & _ & Hrun).
  exists b, f.
  assert (Hr : on_reboot w' self = on_reboot w self) by reflexivity.
  assert (Hs : on_shutdown w' self = on_shutdown w self) by reflexivity.
  split; (split; [assumption|]);
    unfold on_reboot, on_shutdown; rewrite Hrun;
    rewrite (after_theming_yes w' _ _ _ b f Hyes); repeat split.
Qed.

Lemma confirmed_command_unchecked_witness :
  let w := with_response (quiet_world FileAbsent) ResponseType.YES in
  let w' := with_shell_status w (fun _ => 256) in
  (commands (trace (on_reboot w' default_menu)) = [ShellLine "systemctl reboot"]
   /\ outcome (on_reboot w' default_menu) = Ok tt
   /\ window_closed (trace (on_reboot w' default_menu)) = true)
  /\ (commands (trace (on_shutdown w' default_menu))
      = [ShellLine "systemctl poweroff"]
      /\ outcome (on_shutdown w' default_menu) = Ok tt
      /\ window_closed (trace (on_shutdown w' default_menu)) = true).
Proof.
  destruct (confirmed_command_unchecked
              (with_response (quiet_world FileAbsent) ResponseType.YES)
              default_menu "#282a36" "#f8f8f2" "#bd93f9" (fun _ => 256)
              ltac:(split; reflexivity) eq_refl)
    as (b & f & (_ & _ & Hrc & Hro & Hrw) & (_ & _ & Hsc & Hso & Hsw)).
  repeat split; assumption.
Defined.

(** C5.  Activating Cancel closes the window and invokes no external
    command, whatever the window holds and whatever the world is. *)
Theorem cancel_closes_window (w : world) (self : PowerMenu) :
  clicked w "Cancel" self = ([WindowDestroyed], Ok tt)
  /\ commands (trace (clicked w "Cancel" self)) = []
  /\ window_closed (trace (clicked w "Cancel" self)) = true.
Proof. repeat split. Qed.

Section ColorSource.

(** The specification's reading of [load_wal_colors] fails: on invalid
    JSON the decoder's error reaches the caller, and a cache without the
    [colors] group comes back as it is, which is not the default palette. *)
Lemma load_wal_colors_not_default :
  ~ (cache_failure (colors_json (quiet_world FileInvalid)) ->
     load_wal_colors (quiet_world FileInvalid) = ret default_palette)
  /\ ~ (cache_failure (colors_json (quiet_world (FileJson cache_without_colors))) ->
        load_wal_colors (quiet_world (FileJson cache_without_colors))
        = ret default_palette).
Proof.
  split; intros H.
  - assert (F : cache_failure (colors_json (quiet_world FileInvalid)))
      by (right; left; reflexivity).
    specialize (H F). discriminate H.
  - assert (F : cache_failure
                  (colors_json (quiet_world (FileJson cache_without_colors)))).
    { right; right. exists cache_without_colors. split; reflexivity. }
    specialize (H F). discriminate H.
Qed.

(** What the caller meets with a cache that lacks keys: the window is
    not built. *)
Example init_without_colors :
  PowerMenu_init (quiet_world (FileJson cache_without_colors))
  = ([], Raise (KeyError "colors")).
Proof. reflexivity. Qed.

(** C2, amended.  When the colour cache file is absent [load_wal_colors]
    returns exactly the built-in default palette and raises nothing; when
    the file holds invalid JSON the decoder's error is raised to the
    caller; when it decodes, the decoded value is returned as it is,
    whatever keys it has. *)
Theorem load_wal_colors_by_case (w : world) :
  (colors_json w = FileAbsent -> load_wal_colors w = ret default_palette)
  /\ (colors_json w = FileInvalid -> load_wal_colors w = raise JSONDecodeError)
  /\ (forall v, colors_json w = FileJson v -> load_wal_colors w = ret v).
Proof.
  unfold load_wal_colors.
  repeat split; [intros H | intros H | intros v H]; now rewrite H.
Qed.

Lemma load_wal_colors_by_case_witness :
  colors_json (quiet_world FileAbsent) = FileAbsent
  /\ load_wal_colors (quiet_world FileAbsent) = ret default_palette.
Proof.
  split; [reflexivity|].
  apply (proj1 (load_wal_colors_by_case (quiet_world FileAbsent))).
  reflexivity.
Defined.

End ColorSource.

(** * Further properties of the handlers *)

Section LockEdges.

Variable w : world.

(** The loop stops at a command that may not be run, with its error. *)
Lemma for_each_denied cmds : forall n argv,
  (Py.split <$> cmds) !! n = Some argv ->
  (forall i a, (i < n)%nat -> (Py.split <$> cmds) !! i = Some a ->
               failed (spawn_result w a) = true) ->
  spawn_result w argv = NotPermitted ->
  for_each (lock_attempt w) cmds
  = (Spawned <$> take (S n) (Py.split <$> cmds), Raise PermissionError).
Proof.
  induction cmds as [|cmd cmds IH]; intros n argv Hn Hfail Hno;
    [discriminate|].
  destruct n as [|n].
  - injection Hn as <-. cbn [for_each].
    now rewrite (lock_attempt_denied _ _ Hno), mbind_raise.
  - cbn [for_each].
    rewrite (lock_attempt_failed w cmd), mbind_ok
      by (apply (Hfail 0%nat); [lia | reflexivity]).
    rewrite (IH n argv Hn); [reflexivity | | exact Hno].
    intros i a Hi Ha. apply (Hfail (S i)); [lia | exact Ha].
Qed.

(** The loop over a list that is not empty runs at least its first
    command and at most all of them, and ends normally or with
    [PermissionError]. *)
Lemma for_each_shape cmd cmds :
  exists k, (1 <= k <= length (cmd :: cmds))%nat
    /\ (for_each (lock_attempt w) (cmd :: cmds)
         = (Spawned <$> take k (Py.split <$> cmd :: cmds), Ok tt)
        \/ for_each (lock_attempt w) (cmd :: cmds)
           = (Spawned <$> take k (Py.split <$> cmd :: cmds),
              Raise PermissionError)).
Proof.
  revert cmd. induction cmds as [|next cmds IH]; intros cmd.
  - exists 1%nat. split; [cbn [length]; lia|]. cbn [for_each].
    destruct (spawn_result w (Py.split cmd)) as [code| |] eqn:E.
    + destruct (Z.eqb_spec code 0) as [-> | Hne].
      * left. now rewrite (lock_attempt_ok _ _ E), mbind_ok.
      * left. rewrite (lock_attempt_failed w cmd), mbind_ok; [reflexivity|].
        rewrite E. cbn. now apply negb_true_iff, Z.eqb_neq.
    + left. rewrite (lock_attempt_failed w cmd), mbind_ok; [reflexivity|].
      now rewrite E.
    + right. now rewrite (lock_attempt_denied _ _ E), mbind_raise.
  - destruct (IH next) as (k & Hk & Hrest).
    assert (Hfailed : failed (spawn_result w (Py.split cmd)) = true ->
      exists k', (1 <= k' <= length (cmd :: next :: cmds))%nat
        /\ (for_each (lock_attempt w) (cmd :: next :: cmds)
             = (Spawned <$> take k' (Py.split <$> cmd :: next :: cmds), Ok tt)
            \/ for_each (lock_attempt w) (cmd :: next :: cmds)
               = (Spawned <$> take k' (Py.split <$> cmd :: next :: cmds),
                  Raise PermissionError))).
    { intros Hf. exists (S k). split; [cbn [length] in *; lia|].
      change (for_each (lock_attempt w) (cmd :: next :: cmds))
        with (lock_attempt w cmd ≫= fun how =>
                match how with
                | Break => ret tt
                | Continue => for_each (lock_attempt w) (next :: cmds)
                end).
      rewrite (lock_attempt_failed w cmd Hf), mbind_ok.
      destruct Hrest as [-> | ->]; [left | right]; reflexivity. }
    destruct (spawn_result w (Py.split cmd)) as [code| |] eqn:E.
    + destruct (Z.eqb_spec code 0) as [-> | Hne].
      * exists 1%nat. split; [cbn [length]; lia|]. left. cbn [for_each].
        now rewrite (lock_attempt_ok _ _ E), mbind_ok.
      * apply Hfailed. cbn. now apply negb_true_iff, Z.eqb_neq.
    + now apply Hfailed.
    + exists 1%nat. split; [cbn [length]; lia|]. right. cbn [for_each].
      now rewrite (lock_attempt_denied _ _ E), mbind_raise.
Qed.

(** What [on_lock] can do, in any world: it runs a prefix of its chain
    that is not empty, and either closes the window and returns, or
    stops with [PermissionError] and the window open. *)
Lemma on_lock_shape (self : PowerMenu) :
  exists k, (1 <= k <= length (lock_chain (is_hyprland self)))%nat
    /\ (on_lock w self
         = ((Spawned <$> take k (lock_chain (is_hyprland self)))
              ++ [WindowDestroyed], Ok tt)%list
        \/ on_lock w self
           = (Spawned <$> take k (lock_chain (is_hyprland self)),
              Raise PermissionError)).
Proof.
  destruct (for_each_shape "loginctl lock-session"
              ["dm-tool lock"; "i3lock"; "swaylock"]) as (k & Hk & Hloop).
  change (for_each (lock_attempt w) _) with (fallback_lock w) in Hloop.
  change (Py.split <$> _) with (lock_chain false) in Hloop.
  assert (Hfailed : failed (spawn_result w ["hyprlock"]) = true ->
    exists k', (1 <= k' <= length (["hyprlock"] :: lock_chain false))%nat
      /\ ((try_except (subprocess_run w ["hyprlock"]) lock_handled
                      (fallback_lock w) ;; destroy)
           = ((Spawned <$> take k' (["hyprlock"] :: lock_chain false))
                ++ [WindowDestroyed], Ok tt)%list
          \/ (try_except (subprocess_run w ["hyprlock"]) lock_handled
                         (fallback_lock w) ;; destroy)
             = (Spawned <$> take k' (["hyprlock"] :: lock_chain false),
                Raise PermissionError))).
  { intros Hf. destruct (subprocess_run_failed w _ Hf) as (e & Hrun & He).
    exists (S k). split.
    { change (length (["hyprlock"] :: lock_chain false)) with 5%nat.
      cbn [length] in Hk. lia. }
    rewrite Hrun. cbn [try_except]. rewrite He.
    destruct Hloop as [-> | ->]; [left | right]; reflexivity. }
  unfold on_lock. destruct (is_hyprland self).
  - rewrite lock_chain_compositor.
    destruct (spawn_result w ["hyprlock"]) as [code| |] eqn:E.
    + destruct (Z.eqb_spec code 0) as [-> | Hne].
      * exists 1%nat. split; [cbn [length]; lia|]. left.
        now rewrite (subprocess_run_ok w _ E).
      * apply Hfailed. cbn. now apply negb_true_iff, Z.eqb_neq.
    + now apply Hfailed.
    + exists 1%nat. split; [cbn [length]; lia|]. right.
      unfold subprocess_run. now rewrite E.
  - exists k. split; [exact Hk|].
    destruct Hloop as [-> | ->]; [left | right].
    + now rewrite mbind_ok.
    + now rewrite mbind_raise.
Qed.

(** C8.  The compositor signature in the environment selects the Lock
    path.  When it is present the compositor's locker is the first command
    invoked, before any command of the fallback chain, and what follows
    it follows the chain.  When it is absent that locker is never invoked:
    the commands invoked are the first [k] of the fallback chain, at least
    its first one. *)
Theorem lock_path_selected (t : list event) (self : PowerMenu) :
  PowerMenu_init w = (t, Ok self) ->
  (is_Some (environ w !! "HYPRLAND_INSTANCE_SIGNATURE") ->
   (exists rest, trace (on_lock w self) = Spawned ["hyprlock"] :: rest)
   /\ (exists k, (1 <= k <= length (lock_chain true))%nat
         /\ commands (trace (on_lock w self))
            = Argv <$> take k (lock_chain true)))
  /\ (environ w !! "HYPRLAND_INSTANCE_SIGNATURE" = None ->
      (Argv ["hyprlock"] ∉ commands (trace (on_lock w self)))
      /\ (exists k, (1 <= k <= length (lock_chain false))%nat
            /\ commands (trace (on_lock w self))
               = Argv <$> take k (lock_chain false)
            /\ head (commands (trace (on_lock w self)))
               = Some (Argv ["loginctl"; "lock-session"]))).
Proof.
  intros Hinit. apply (init_is_hyprland w) in Hinit.
  destruct (on_lock_shape self) as (k & Hk & Hrun).
  assert (Hcmds : commands (trace (on_lock w self))
                  = Argv <$> take k (lock_chain (is_hyprland self))).
  { destruct Hrun as [-> | ->]; cbn [trace fst].
    - now rewrite commands_app, commands_spawned, app_nil_r.
    - apply commands_spawned. }
  assert (Htrace : exists rest,
             trace (on_lock w self)
             = ((Spawned <$> take k (lock_chain (is_hyprland self))) ++ rest)%list).
  { destruct Hrun as [-> | ->]; cbn [trace fst].
    - now exists [WindowDestroyed].
    - exists []. now rewrite app_nil_r. }
  destruct k as [|k]; [lia|].
  split; intros Hsig.
  - rewrite bool_decide_eq_true_2 in Hinit by exact Hsig.
    rewrite Hinit in *. split.
    + destruct Htrace as [rest ->]. eexists. reflexivity.
    + exists (S k). now split.
  - rewrite bool_decide_eq_false_2 in Hinit
      by (rewrite Hsig; apply is_Some_None).
    rewrite Hinit in *. split.
    + rewrite Hcmds. intros Hin.
      apply list_elem_of_fmap in Hin as (a & [= <-] & Ha).
      apply subseteq_take in Ha.
      unfold lock_chain in Ha. cbn in Ha.
      repeat (apply elem_of_cons in Ha as [Ha | Ha]; [discriminate Ha|]).
      now apply elem_of_nil in Ha.
    + exists (S k). repeat split; [lia | apply Hk | exact Hcmds|].
      now rewrite Hcmds.
Qed.

(** X1.  When the first [n] commands of the Lock chain fail and the next
    one may not be run, [on_lock] stops there with [PermissionError]: it
    has invoked those [n + 1] commands and no later one, and the window
    stays open. *)
Theorem on_lock_not_permitted (self : PowerMenu) (n : nat) (argv : list string) :
  lock_chain (is_hyprland self) !! n = Some argv ->
  (forall i a, (i < n)%nat -> lock_chain (is_hyprland self) !! i = Some a ->
               failed (spawn_result w a) = true) ->
  spawn_result w argv = NotPermitted ->
  on_lock w self
  = (Spawned <$> take (S n) (lock_chain (is_hyprland self)),
     Raise PermissionError)
  /\ window_closed (trace (on_lock w self)) = false.
Proof.
  intros Hn Hfail Hno.
  assert (Hrun : on_lock w self
                 = (Spawned <$> take (S n) (lock_chain (is_hyprland self)),
                    Raise PermissionError)).
  { unfold on_lock. destruct (is_hyprland self).
    - rewrite lock_chain_compositor in *. destruct n as [|n].
      + injection Hn as <-. unfold subprocess_run. now rewrite Hno.
      + destruct (subprocess_run_failed w ["hyprlock"]) as (e & Hrun & He).
        { apply (Hfail 0%nat); [lia | reflexivity]. }
        rewrite Hrun. cbn [try_except]. rewrite He.
        unfold fallback_lock.
        rewrite (for_each_denied lock_commands n argv);
          [reflexivity | exact Hn | | exact Hno].
        intros i a Hi Ha. apply (Hfail (S i)); [lia | exact Ha].
    - unfold fallback_lock.
      now rewrite (for_each_denied lock_commands n argv), mbind_raise. }
  rewrite Hrun. split; [reflexivity|].
  apply window_closed_spawned.
Qed.

(** X2.  In every world [on_lock] closes the window exactly when it
    returns without an exception. *)
Theorem on_lock_closes_iff_returns (self : PowerMenu) :
  window_closed (trace (on_lock w self)) = true
  <-> outcome (on_lock w self) = Ok tt.
Proof.
  destruct (on_lock_shape self) as (k & _ & [-> | ->]);
    cbn [trace outcome fst snd].
  - unfold window_closed. rewrite existsb_app.
    split; [reflexivity | intros _; apply orb_true_r].
  - rewrite window_closed_spawned. split; discriminate.
Qed.

(** X3.  In every world the commands [on_lock] invokes are the first [k]
    of the Lock chain, in its order, for some [k] from 1 to the length of
    the chain; it runs no shell command and shows no dialog. *)
Theorem on_lock_commands_prefix (self : PowerMenu) :
  (exists k, (1 <= k <= length (lock_chain (is_hyprland self)))%nat
     /\ commands (trace (on_lock w self))
        = Argv <$> take k (lock_chain (is_hyprland self)))
  /\ count is_shell (trace (on_lock w self)) = 0%nat
  /\ dialog_shown (trace (on_lock w self)) = false.
Proof.
  assert (Hshell : forall l : list (list string),
             count is_shell (Spawned <$> l) = 0%nat)
    by (induction l as [|x l IH]; [reflexivity | exact IH]).
  destruct (on_lock_shape self) as (k & Hk & [-> | ->]);
    cbn [trace fst]; (split; [exists k; split; [exact Hk|] | split]).
  - now rewrite commands_app, commands_spawned, app_nil_r.
  - unfold count. rewrite List.filter_app, length_app.
    fold (count is_shell (Spawned <$> take k (lock_chain (is_hyprland self)))).
    now rewrite Hshell.
  - unfold dialog_shown. rewrite existsb_app.
    fold (dialog_shown (Spawned <$> take k (lock_chain (is_hyprland self)))).
    now rewrite dialog_shown_spawned.
  - apply commands_spawned.
  - apply Hshell.
  - apply dialog_shown_spawned.
Qed.

End LockEdges.

Lemma lock_path_selected_witness :
  ((exists rest,
      trace (on_lock third_locks compositor_menu) = Spawned ["hyprlock"] :: rest)
   /\ (exists k, (1 <= k <= length (lock_chain true))%nat
         /\ commands (trace (on_lock third_locks compositor_menu))
            = Argv <$> take k (lock_chain true)))
  /\ ((Argv ["hyprlock"]
         ∉ commands (trace (on_lock (quiet_world FileAbsent) default_menu)))
      /\ (exists k, (1 <= k <= length (lock_chain false))%nat
            /\ commands (trace (on_lock (quiet_world FileAbsent) default_menu))
               = Argv <$> take k (lock_chain false)
            /\ head (commands (trace (on_lock (quiet_world FileAbsent)
                                              default_menu)))
               = Some (Argv ["loginctl"; "lock-session"]))).
Proof.
  split.
  - apply (proj1 (lock_path_selected third_locks
                    [ProviderAdded (css_text "#282a36" "#f8f8f2" "#bd93f9")]
                    compositor_menu eq_refl)).
    vm_compute. eauto.
  - apply (proj2 (lock_path_selected (quiet_world FileAbsent)
                    [ProviderAdded (css_text "#282a36" "#f8f8f2" "#bd93f9")]
                    default_menu eq_refl)).
    reflexivity.
Defined.

(** The display manager's locker may not be run, after the compositor's
    and the session manager's failed. *)
Lemma on_lock_not_permitted_witness :
  let w := with_spawn third_locks
             (fun argv =>
                if argv_eqb argv ["dm-tool"; "lock"] then NotPermitted
                else NoSuchFile) in
  on_lock w compositor_menu
  = ([Spawned ["hyprlock"]; Spawned ["loginctl"; "lock-session"];
      Spawned ["dm-tool"; "lock"]], Raise PermissionError)
  /\ window_closed (trace (on_lock w compositor_menu)) = false.
Proof.
  apply (on_lock_not_permitted
           (with_spawn third_locks
              (fun argv =>
                 if argv_eqb argv ["dm-tool"; "lock"] then NotPermitted
                 else NoSuchFile))
           compositor_menu 2 ["dm-tool"; "lock"]).
  - reflexivity.
  - intros [|[|i]] a Hi Ha.
    + injection Ha as <-. reflexivity.
    + injection Ha as <-. reflexivity.
    + lia.
  - reflexivity.
Defined.

Section HexEdges.

Lemma int16_cases (s : string) :
  (exists n, Py.int16 s = Ok n) \/ Py.int16 s = Raise ValueError.
Proof.
  unfold Py.int16. repeat case_match; eauto.
Qed.

Lemma slice_past_end (s : string) :
  (String.length s <= 4)%nat -> Py.slice 4 6 s = "".
Proof.
  intros H. unfold Py.slice. cbn [Nat.sub].
  do 4 (destruct s as [|? s]; [reflexivity|]).
  destruct s; [reflexivity | cbn in H; lia].
Qed.

Lemma lstrip_hashes (n : nat) (a : ascii) (rest : string) :
  Ascii.eqb a "#" = false ->
  Py.str_lstrip "#" (hashes n ++ String a rest) = String a rest.
Proof.
  intros Ha. induction n as [|n IH].
  - change (Py.str_lstrip "#" (String a rest) = String a rest).
    cbn [Py.str_lstrip]. now rewrite Ha.
  - exact IH.
Qed.

Lemma substring_empty (s : string) : substring 0 0 s = "".
Proof. now destruct s. Qed.

Lemma hex_not_hash a : Chars.is_hex a = true -> Ascii.eqb a "#" = false.
Proof.
  intros Ha. apply is_hex_cases in Ha. unfold hex_chars in Ha.
  cbn [list_ascii_of_string In] in Ha.
  repeat (destruct Ha as [<- | Ha]); first [contradiction | reflexivity].
Qed.

Lemma hex_to_rgba_too_short (s : string) :
  (String.length (Py.str_lstrip "#" s) <= 4)%nat ->
  hex_to_rgba (PStr s) = Raise ValueError.
Proof.
  intros Hlen. unfold hex_to_rgba. cbn [Py.lstrip_hash result_bind].
  rewrite (slice_past_end _ Hlen).
  destruct (int16_cases (Py.slice 0 2 (Py.str_lstrip "#" s))) as [[r ->] | ->];
    [cbn [result_bind] | reflexivity].
  destruct (int16_cases (Py.slice 2 4 (Py.str_lstrip "#" s))) as [[g ->] | ->];
    reflexivity.
Qed.

(** X4.  A colour that has at most four characters after its leading [#]
    characters, such as the short form [#fff], makes [hex_to_rgba] raise
    [ValueError]. *)
Theorem hex_to_rgba_short (s : string) :
  (String.length (Py.str_lstrip "#" s) <= 4)%nat ->
  hex_to_rgba (PStr s) = Raise ValueError.
Proof. exact (hex_to_rgba_too_short s). Qed.

Lemma hex_to_rgba_short_witness :
  (String.length (Py.str_lstrip "#" "#fff") <= 4)%nat
  /\ hex_to_rgba (PStr "#fff") = Raise ValueError.
Proof.
  split; [cbn; lia | apply (hex_to_rgba_short "#fff"); cbn; lia].
Defined.

(** X5.  [hex_to_rgba] reads the first six characters after the leading
    [#] characters and nothing else: with six hex digits there, any number
    of [#] in front, none included, and any text behind give the colour of
    the six digits. *)
Theorem hex_to_rgba_reads_six (n : nat) (digits tail : string) :
  six_hex digits = true ->
  hex_to_rgba (PStr (hashes n ++ digits ++ tail)) = Ok (rgba_of_digits digits).
Proof.
  intros H. apply six_hex_inv in H
    as (a & b & c & d & e & f & -> & Ha & Hb & Hc & Hd & He & Hf).
  unfold hex_to_rgba. cbn [Py.lstrip_hash result_bind].
  change (String a (String b (String c (String d (String e (String f ""))))) ++ tail)
    with (String a (String b (String c (String d (String e (String f tail)))))).
  rewrite (lstrip_hashes n a _ (hex_not_hash a Ha)).
  cbn [Py.slice Nat.sub substring result_bind].
  rewrite !substring_empty.
  rewrite (int16_two_digits a b Ha Hb). cbn [result_bind].
  rewrite (int16_two_digits c d Hc Hd). cbn [result_bind].
  rewrite (int16_two_digits e f He Hf). reflexivity.
Qed.

Lemma hex_to_rgba_reads_six_witness :
  six_hex "282a36" = true
  /\ hex_to_rgba (PStr "##282a36ff") = Ok (rgba_of_digits "282a36").
Proof.
  split; [reflexivity|].
  apply (hex_to_rgba_reads_six 2 "282a36" "ff"). reflexivity.
Defined.

Lemma lower_char_value a : Chars.hex_value (lower_char a) = Chars.hex_value a.
Proof. destruct a as [[] [] [] [] [] [] [] []]; reflexivity. Qed.

Lemma lower_get (s : string) (i : nat) :
  String.get i (lower s) = lower_char <$> String.get i s.
Proof.
  revert i. induction s as [|a s IH]; intros [|i]; try reflexivity.
  exact (IH i).
Qed.

Lemma lower_byte_at (s : string) (i : nat) : byte_at (lower s) i = byte_at s i.
Proof.
  unfold byte_at, digit_at. rewrite !lower_get.
  destruct (String.get i s), (String.get (S i) s); cbn;
    now rewrite ?lower_char_value.
Qed.

Lemma lower_six_hex (s : string) : six_hex (lower s) = six_hex s.
Proof.
  unfold six_hex. f_equal.
  - f_equal. induction s as [|a s IH]; [reflexivity | cbn; now rewrite IH].
  - induction s as [|a s IH]; [reflexivity|].
    cbn [lower all_hex]. unfold Chars.is_hex.
    now rewrite lower_char_value, IH.
Qed.

(** X6.  The case of the hex digits does not matter to [hex_to_rgba]:
    six digits and the same digits in lower case give the same colour. *)
Theorem hex_to_rgba_any_case (digits : string) :
  six_hex digits = true ->
  hex_to_rgba (PStr (String "#" (lower digits)))
  = hex_to_rgba (PStr (String "#" digits)).
Proof.
  intros H.
  rewrite (hex_to_rgba_digits digits H).
  rewrite (hex_to_rgba_digits (lower digits))
    by now rewrite lower_six_hex.
  unfold rgba_of_digits. now rewrite !lower_byte_at.
Qed.

Lemma hex_to_rgba_any_case_witness :
  six_hex "BD93F9" = true
  /\ hex_to_rgba (PStr "#bd93f9") = hex_to_rgba (PStr "#BD93F9").
Proof.
  split; [reflexivity | apply (hex_to_rgba_any_case "BD93F9"); reflexivity].
Defined.

(** Among the 256 bytes, a larger one gives a strictly larger component,
    and no component is below itself. *)
Lemma truediv_255_order_table :
  forallb (fun m =>
    forallb (fun n =>
      if (m <? n)%nat
      then PrimFloat.ltb (Py.truediv_255 (Z.of_nat m)) (Py.truediv_255 (Z.of_nat n))
      else if (m =? n)%nat
      then negb (PrimFloat.ltb (Py.truediv_255 (Z.of_nat m))
                               (Py.truediv_255 (Z.of_nat n)))
      else true)
      (seq 0 256))
    (seq 0 256) = true.
Proof. vm_compute. reflexivity. Qed.

Lemma truediv_255_table_at (m n : Z) :
  0 <= m <= 255 -> 0 <= n <= 255 ->
  (if m <? n
   then PrimFloat.ltb (Py.truediv_255 m) (Py.truediv_255 n)
   else if m =? n
   then negb (PrimFloat.ltb (Py.truediv_255 m) (Py.truediv_255 n))
   else true) = true.
Proof.
  intros Hm Hn.
  pose proof (proj1 (forallb_forall _ _) truediv_255_order_table (Z.to_nat m)) as H.
  cbv beta in H.
  assert (Hin : forall k, 0 <= k <= 255 -> In (Z.to_nat k) (seq 0 256))
    by (intros k Hk; apply in_seq; lia).
  specialize (H (Hin m Hm)).
  pose proof (proj1 (forallb_forall _ _) H (Z.to_nat n) (Hin n Hn)) as H'.
  cbv beta in H'. rewrite !Z2Nat.id in H' by lia.
  destruct (Z.ltb_spec m n), (Nat.ltb_spec (Z.to_nat m) (Z.to_nat n));
    try lia; try exact H'.
  destruct (Z.eqb_spec m n), (Nat.eqb_spec (Z.to_nat m) (Z.to_nat n));
    try lia; exact H'.
Qed.

Lemma truediv_255_inj (m n : Z) :
  0 <= m <= 255 -> 0 <= n <= 255 ->
  Py.truediv_255 m = Py.truediv_255 n -> m = n.
Proof.
  intros Hm Hn Heq.
  pose proof (truediv_255_table_at m n Hm Hn) as Hmn.
  pose proof (truediv_255_table_at n m Hn Hm) as Hnm.
  pose proof (truediv_255_table_at n n Hn Hn) as Hnn.
  rewrite Z.ltb_irrefl, Z.eqb_refl in Hnn.
  rewrite Heq in Hmn. rewrite <- Heq in Hnm at 2. rewrite Heq in Hnm.
  destruct (Z.ltb_spec m n); [rewrite Hmn in Hnn; discriminate Hnn|].
  destruct (Z.ltb_spec n m); [rewrite Hnm in Hnn; discriminate Hnn|].
  lia.
Qed.

(** X7.  Six-digit colours that [hex_to_rgba] maps to the same value
    denote the same three bytes: no two bytes share a component. *)
Theorem hex_to_rgba_distinguishes (d1 d2 : string) :
  six_hex d1 = true -> six_hex d2 = true ->
  hex_to_rgba (PStr (String "#" d1)) = hex_to_rgba (PStr (String "#" d2)) ->
  byte_at d1 0 = byte_at d2 0
  /\ byte_at d1 2 = byte_at d2 2
  /\ byte_at d1 4 = byte_at d2 4.
Proof.
  intros H1 H2.
  rewrite (hex_to_rgba_digits d1 H1), (hex_to_rgba_digits d2 H2).
  intros [= Hr Hg Hb].
  repeat split; apply truediv_255_inj; auto using byte_at_range.
Qed.

Lemma hex_to_rgba_distinguishes_witness :
  byte_at "ff00FF" 0 = byte_at "FF00ff" 0
  /\ byte_at "ff00FF" 2 = byte_at "FF00ff" 2
  /\ byte_at "ff00FF" 4 = byte_at "FF00ff" 4.
Proof.
  apply (hex_to_rgba_distinguishes "ff00FF" "FF00ff"); reflexivity.
Defined.

End HexEdges.

Section ConfirmEdges.

Variable w : world.
Variable self : PowerMenu.

Lemma after_theming_trace (action message line : string) (b f : RGBA) :
  after_theming w action message line b f
  = (([DialogRun action message b f]
        ++ (if dialog_response w =? ResponseType.YES
            then [Shell line; WindowDestroyed] else [])
        ++ [DialogDestroyed])%list, Ok tt).
Proof.
  unfold after_theming. now destruct (dialog_response w =? ResponseType.YES).
Qed.

(** X8.  In every world and for every palette, Reboot and Shutdown invoke
    their command exactly when the dialog ran and the answer was Yes, and
    no command otherwise; the window is closed in exactly that case, and
    the dialog is destroyed exactly when it ran. *)
Theorem power_command_iff_yes (a : power_action) :
  let t := trace (power_handler w a self) in
  let confirmed := dialog_shown t && (dialog_response w =? ResponseType.YES) in
  commands t = (if confirmed then [ShellLine (fixed_command a)] else [])
  /\ window_closed t = confirmed
  /\ dialog_closed t = dialog_shown t.
Proof.
  destruct (power_handler_confirm w self a) as (action & message & ->).
  destruct (confirm_action_cases w self action message (fixed_command a))
    as [[e ->] | (b & f & ->)]; [repeat split|].
  rewrite after_theming_trace.
  now destruct (dialog_response w =? ResponseType.YES).
Qed.

(** X9.  When the palette's background or foreground is a text with at
    most four characters after its [#], Reboot and Shutdown raise
    [ValueError] before the dialog runs: nothing is shown, no command is
    invoked and the window stays. *)
Theorem power_handler_short_color (a : power_action) (bg fg : string) :
  palette_entry (wal_colors self) "special" "background" = Some bg ->
  palette_entry (wal_colors self) "special" "foreground" = Some fg ->
  (String.length (Py.str_lstrip "#" bg) <= 4)%nat
  \/ (String.length (Py.str_lstrip "#" fg) <= 4)%nat ->
  power_handler w a self = ([], Raise ValueError).
Proof.
  intros Hb Hf Hshort.
  destruct (power_handler_confirm w self a) as (action & message & ->).
  unfold confirm_action.
  rewrite (palette_entry_color self _ _ _ Hb), (palette_entry_color self _ _ _ Hf).
  unfold ret. rewrite !mbind_ret_l. unfold lift.
  assert (Hcases : forall s, (exists c, hex_to_rgba (PStr s) = Ok c)
                             \/ hex_to_rgba (PStr s) = Raise ValueError).
  { intros s. unfold hex_to_rgba. cbn [Py.lstrip_hash result_bind].
    destruct (int16_cases (Py.slice 0 2 (Py.str_lstrip "#" s))) as [[r ->] | ->];
      [cbn [result_bind] | now right].
    destruct (int16_cases (Py.slice 2 4 (Py.str_lstrip "#" s))) as [[g ->] | ->];
      [cbn [result_bind] | now right].
    destruct (int16_cases (Py.slice 4 6 (Py.str_lstrip "#" s))) as [[b' ->] | ->];
      [left; now eexists | now right]. }
  destruct Hshort as [Hs | Hs].
  - now rewrite (hex_to_rgba_too_short bg Hs).
  - destruct (Hcases bg) as [[c ->] | ->]; [|reflexivity].
    rewrite mbind_ret_l. now rewrite (hex_to_rgba_too_short fg Hs).
Qed.

(** X10.  With a valid palette the dialog carries the action's title and
    question and the palette's background and foreground as its colours;
    on Yes the command is run before the window is destroyed, and the
    dialog is destroyed last. *)
Theorem confirm_dialog_themed (a : power_action) (bg fg ac : string) :
  valid_palette (wal_colors self) (String "#" bg) (String "#" fg) ac ->
  exists title question,
    (title, question)
    = match a with
      | Reboot => ("Reboot", "Restart the system?")
      | Shutdown => ("Shutdown", "Power off the system?")
      end
    /\ power_handler w a self
       = (([DialogRun title question (rgba_of_digits bg) (rgba_of_digits fg)]
             ++ (if dialog_response w =? ResponseType.YES
                 then [Shell (fixed_command a); WindowDestroyed] else [])
             ++ [DialogDestroyed])%list, Ok tt).
Proof.
  intros [Hb Hf _ Vb Vf _].
  assert (Hrun : forall action message line,
    confirm_action w self action message line
    = after_theming w action message line (rgba_of_digits bg) (rgba_of_digits fg)).
  { intros action message line. unfold confirm_action.
    rewrite (palette_entry_color self _ _ _ Hb),
            (palette_entry_color self _ _ _ Hf).
    unfold ret. rewrite !mbind_ret_l.
    rewrite (hex_to_rgba_digits bg Vb), (hex_to_rgba_digits fg Vf).
    unfold lift. now rewrite !mbind_ret_l. }
  destruct a; do 2 eexists; (split; [reflexivity|]);
    unfold power_handler, on_reboot, on_shutdown;
    now rewrite Hrun, after_theming_trace.
Qed.

End ConfirmEdges.

Lemma power_handler_short_color_witness :
  power_handler (quiet_world FileAbsent) Reboot
    (mkPowerMenu false
       (PDict "{'special': {'background': '#fff', 'foreground': '#000'}}"
          (<["special" :=
               PDict "{'background': '#fff', 'foreground': '#000'}"
                 (<["background" := PStr "#fff"]>
                  (<["foreground" := PStr "#000"]> ∅))]> ∅)))
  = ([], Raise ValueError).
Proof.
  apply (power_handler_short_color (quiet_world FileAbsent) _ Reboot
           "#fff" "#000").
  - reflexivity.
  - reflexivity.
  - left. cbn. lia.
Defined.

Lemma confirm_dialog_themed_witness :
  exists title question,
    (title, question) = ("Shutdown", "Power off the system?")
    /\ power_handler (with_response (quiet_world FileAbsent) ResponseType.YES)
         Shutdown default_menu
       = ([DialogRun title question (rgba_of_digits "282a36")
                     (rgba_of_digits "f8f8f2");
           Shell "systemctl poweroff"; WindowDestroyed; DialogDestroyed],
          Ok tt).
Proof.
  apply (confirm_dialog_themed
           (with_response (quiet_world FileAbsent) ResponseType.YES)
           default_menu Shutdown "282a36" "f8f8f2" "#bd93f9").
  split; reflexivity.
Defined.

Section Startup.

Variable w : world.

Lemma apply_theme_with_keys (self : PowerMenu) :
  has_theme_keys (wal_colors self) = true ->
  exists css, apply_theme self = ([ProviderAdded css], Ok tt).
Proof.
  unfold has_theme_keys, apply_theme, wal_color, lift.
  destruct (result_bind (Py.getitem (wal_colors self) "special")
                        (fun g => Py.getitem g "background")) as [bg|];
    [|discriminate].
  destruct (result_bind (Py.getitem (wal_colors self) "special")
                        (fun g => Py.getitem g "foreground")) as [fg|];
    [|discriminate].
  destruct (result_bind (Py.getitem (wal_colors self) "colors")
                        (fun g => Py.getitem g "color4")) as [ac|];
    [|discriminate].
  intros _. rewrite !mbind_ret_l. now eexists.
Qed.

Lemma apply_theme_without_keys (self : PowerMenu) :
  has_theme_keys (wal_colors self) = false ->
  exists e, apply_theme self = ([], Raise e).
Proof.
  unfold has_theme_keys, apply_theme, wal_color, lift.
  destruct (result_bind (Py.getitem (wal_colors self) "special")
                        (fun g => Py.getitem g "background")) as [bg|e];
    [rewrite mbind_ret_l | intros _; now exists e].
  destruct (result_bind (Py.getitem (wal_colors self) "special")
                        (fun g => Py.getitem g "foreground")) as [fg|e];
    [rewrite mbind_ret_l | intros _; now exists e].
  destruct (result_bind (Py.getitem (wal_colors self) "colors")
                        (fun g => Py.getitem g "color4")) as [ac|e];
    [discriminate | intros _; now exists e].
Qed.

(** What [__init__] can do: build the window and install one style
    sheet, or raise having done nothing. *)
Lemma init_shape :
  if cache_usable (colors_json w)
  then exists css self,
         PowerMenu_init w = ([ProviderAdded css], Ok self)
         /\ is_hyprland self
            = bool_decide (is_Some (environ w !! "HYPRLAND_INSTANCE_SIGNATURE"))
  else exists e, PowerMenu_init w = ([], Raise e).
Proof.
  unfold PowerMenu_init, load_wal_colors, cache_usable.
  destruct (colors_json w) as [| | |v].
  - unfold ret. rewrite mbind_ret_l.
    destruct (apply_theme_with_keys
                (mkPowerMenu
                   (bool_decide
                      (is_Some (environ w !! "HYPRLAND_INSTANCE_SIGNATURE")))
                   default_palette) eq_refl) as [css ->].
    do 2 eexists. split; reflexivity.
  - now exists OSError.
  - now exists JSONDecodeError.
  - unfold ret. rewrite mbind_ret_l.
    destruct (has_theme_keys v) eqn:Hkeys.
    + destruct (apply_theme_with_keys
                  (mkPowerMenu
                     (bool_decide
                        (is_Some (environ w !! "HYPRLAND_INSTANCE_SIGNATURE")))
                     v) Hkeys) as [css ->].
      do 2 eexists. split; reflexivity.
    + destruct (apply_theme_without_keys
                  (mkPowerMenu
                     (bool_decide
                        (is_Some (environ w !! "HYPRLAND_INSTANCE_SIGNATURE")))
                     v) Hkeys) as [e ->].
      now exists e.
Qed.

(** X11.  [__init__] raises, with no style sheet installed, whenever the
    cache is unreadable, holds invalid JSON, or decodes to a value lacking
    one of [special.background], [special.foreground] and [colors.color4];
    so a window that was built had a usable cache and exactly one style
    sheet installed.  A cache that decodes to a valid palette builds the
    window over it, with the style sheet of its three colours. *)
Theorem init_raises_unless_usable :
  (cache_usable (colors_json w) = false ->
   exists e, PowerMenu_init w = ([], Raise e))
  /\ (forall self, outcome (PowerMenu_init w) = Ok self ->
      cache_usable (colors_json w) = true
      /\ exists css, trace (PowerMenu_init w) = [ProviderAdded css])
  /\ (forall v bg fg ac,
        colors_json w = FileJson v -> valid_palette v bg fg ac ->
        exists self,
          PowerMenu_init w = ([ProviderAdded (css_text bg fg ac)], Ok self)
          /\ wal_colors self = v).
Proof.
  pose proof init_shape as H. split; [|split].
  - intros Hno. now rewrite Hno in H.
  - intros self Hok. destruct (cache_usable (colors_json w)).
    + split; [reflexivity|].
      destruct H as (css & self' & -> & _). now exists css.
    + destruct H as (e & He). rewrite He in Hok. discriminate Hok.
  - intros v bg fg ac Hfile V.
    set (self := mkPowerMenu
       (bool_decide (is_Some (environ w !! "HYPRLAND_INSTANCE_SIGNATURE"))) v).
    destruct (apply_theme_valid self bg fg ac V) as [Happly _].
    exists self. split; [|reflexivity].
    unfold PowerMenu_init, load_wal_colors. rewrite Hfile.
    unfold ret. rewrite mbind_ret_l. fold self. now rewrite Happly.
Qed.

(** X12.  A cache that decodes to a dict without the key [special] makes
    [__init__] raise [KeyError] for that key; no style sheet is
    installed. *)
Theorem init_missing_special (shown : string) (items : gmap string pyval) :
  colors_json w = FileJson (PDict shown items) ->
  items !! "special" = None ->
  PowerMenu_init w = ([], Raise (KeyError "special")).
Proof.
  intros Hfile Hkey.
  unfold PowerMenu_init, load_wal_colors. rewrite Hfile.
  unfold ret. rewrite mbind_ret_l.
  unfold apply_theme, wal_color. cbn [wal_colors Py.getitem].
  now rewrite Hkey.
Qed.

(** X13.  With the cache absent the window is built over the default
    palette and themed with it: background [#282a36], label colour
    [#f8f8f2], border colour [#bd93f9]. *)
Theorem init_default_theme :
  colors_json w = FileAbsent ->
  exists css,
    PowerMenu_init w
    = ([ProviderAdded css],
       Ok (mkPowerMenu
             (bool_decide (is_Some (environ w !! "HYPRLAND_INSTANCE_SIGNATURE")))
             default_palette))
    /\ Css.declared "window" "background-color" css = Some "#282a36"
    /\ Css.declared "label" "color" css = Some "#f8f8f2"
    /\ Css.border_color css = Some "#bd93f9".
Proof.
  intros Hfile. exists (css_text "#282a36" "#f8f8f2" "#bd93f9").
  split; [|repeat split].
  unfold PowerMenu_init, load_wal_colors. now rewrite Hfile.
Qed.

End Startup.

Lemma init_raises_unless_usable_witness :
  (exists e, PowerMenu_init (quiet_world FileInvalid) = ([], Raise e))
  /\ (exists self,
        PowerMenu_init (quiet_world (FileJson scenario_cache))
        = ([ProviderAdded (css_text "#000000" "#ffffff" "#ff00ff")], Ok self)
        /\ wal_colors self = scenario_cache).
Proof.
  split.
  - apply (proj1 (init_raises_unless_usable (quiet_world FileInvalid))).
    reflexivity.
  - apply (proj2 (proj2 (init_raises_unless_usable
                           (quiet_world (FileJson scenario_cache))))
             scenario_cache "#000000" "#ffffff" "#ff00ff").
    + reflexivity.
    + split; reflexivity.
Defined.

Lemma init_missing_special_witness :
  PowerMenu_init (quiet_world (FileJson (PDict "{}" ∅)))
  = ([], Raise (KeyError "special")).
Proof.
  apply (init_missing_special (quiet_world (FileJson (PDict "{}" ∅))) "{}" ∅);
    reflexivity.
Defined.

Lemma init_default_theme_witness :
  exists css,
    PowerMenu_init third_locks
    = ([ProviderAdded css], Ok compositor_menu)
    /\ Css.declared "window" "background-color" css = Some "#282a36"
    /\ Css.declared "label" "color" css = Some "#f8f8f2"
    /\ Css.border_color css = Some "#bd93f9".
Proof.
  apply (init_default_theme third_locks). reflexivity.
Defined.

Lemma name_char_plain a : name_char a = true -> Css.classify a = Css.Plain.
Proof.
  destruct a as [[] [] [] [] [] [] [] []]; intros H;
    first [discriminate H | reflexivity].
Qed.

Lemma color_word_plain s : color_word s = true -> Css.word s = true.
Proof.
  unfold color_word, Css.word. intros H. apply andb_prop in H as [Hne Hall].
  rewrite Hne. cbn [andb]. clear Hne.
  induction s as [|a s IH]; [reflexivity|].
  cbn [all_name_chars] in Hall. apply andb_prop in Hall as [Ha Hs].
  cbn [Css.all_plain]. rewrite (name_char_plain a Ha). auto.
Qed.

(** X14.  Filled with any three colours written as words of letters,
    digits, [#] and [-], colour names included, the style sheet of
    [apply_theme] holds the sixteen declarations of [theme_decls] and no
    other: among them the window background is the background colour and
    the button text the foreground colour. *)
Theorem theme_sheet_complete (bg fg ac : string) :
  color_word bg = true -> color_word fg = true -> color_word ac = true ->
  Css.read (css_text bg fg ac) = theme_decls bg fg ac
  /\ length (Css.read (css_text bg fg ac)) = 16%nat
  /\ Css.declared "window" "background-color" (css_text bg fg ac) = Some bg
  /\ Css.declared "button" "color" (css_text bg fg ac) = Some fg.
Proof.
  intros Hb Hf Ha. apply color_word_plain in Hb, Hf, Ha.
  rewrite !theme_declared by assumption.
  rewrite (read_css_text bg fg ac Hb Hf Ha).
  repeat split.
Qed.

Lemma theme_sheet_complete_witness :
  Css.read (css_text "black" "white" "rebeccapurple")
  = theme_decls "black" "white" "rebeccapurple"
  /\ length (Css.read (css_text "black" "white" "rebeccapurple")) = 16%nat
  /\ Css.declared "window" "background-color"
       (css_text "black" "white" "rebeccapurple") = Some "black"
  /\ Css.declared "button" "color"
       (css_text "black" "white" "rebeccapurple") = Some "white".
Proof.
  apply (theme_sheet_complete "black" "white" "rebeccapurple"); reflexivity.
Defined.

Section Session.

Lemma window_closed_app (t u : list event) :
  window_closed (t ++ u)%list = window_closed t || window_closed u.
Proof. apply existsb_app. Qed.

Lemma count_app (p : event -> bool) (t u : list event) :
  count p (t ++ u)%list = (count p t + count p u)%nat.
Proof. unfold count. now rewrite List.filter_app, length_app. Qed.

Lemma count_spawned (p : event -> bool) (l : list (list string)) :
  (forall argv, p (Spawned argv) = false) ->
  count p (Spawned <$> l) = 0%nat.
Proof.
  intros Hp. induction l as [|x l IH]; [reflexivity|].
  unfold count. cbn. rewrite (Hp x). exact IH.
Qed.

(** A label activates one of the four handlers, or nothing. *)
Lemma clicked_cases (w : world) (label : string) (self : PowerMenu) :
  clicked w label self = on_lock w self
  \/ (exists a, clicked w label self = power_handler w a self)
  \/ clicked w label self = on_cancel self
  \/ clicked w label self = ret tt.
Proof.
  unfold clicked, handler_of, buttons. cbn [List.find fst].
  destruct (String.eqb "Lock" label); [now left|].
  destruct (String.eqb "Reboot" label); [right; left; now exists Reboot|].
  destruct (String.eqb "Shutdown" label); [right; left; now exists Shutdown|].
  destruct (String.eqb "Cancel" label); [right; right; now left|].
  now right; right; right.
Qed.

(** One activation runs at most one shell command and destroys the
    window at most once, and does neither if it leaves the window open. *)
Lemma clicked_tidy (w : world) (label : string) (self : PowerMenu) :
  (count is_shell (trace (clicked w label self)) <= 1)%nat
  /\ (count is_window_destroyed (trace (clicked w label self)) <= 1)%nat
  /\ (window_closed (trace (clicked w label self)) = false ->
      count is_shell (trace (clicked w label self)) = 0%nat
      /\ count is_window_destroyed (trace (clicked w label self)) = 0%nat).
Proof.
  destruct (clicked_cases w label self) as [-> | [[a ->] | [-> | ->]]].
  - destruct (on_lock_shape w self) as (k & _ & [-> | ->]); cbn [trace fst].
    + rewrite !count_app, window_closed_app, !count_spawned by reflexivity.
      rewrite window_closed_spawned. cbn. repeat split; try lia; discriminate.
    + rewrite !count_spawned by reflexivity. repeat split; lia.
  - destruct (power_handler_confirm w self a) as (action & message & ->).
    destruct (confirm_action_cases w self action message (fixed_command a))
      as [[e ->] | (b & f & ->)].
    + cbn. repeat split; lia.
    + rewrite after_theming_trace.
      destruct (dialog_response w =? ResponseType.YES); cbn;
        repeat split; try lia; discriminate.
  - cbn. repeat split; try lia; discriminate.
  - cbn. repeat split; lia.
Qed.

Lemma run_clicks_tidy (self : PowerMenu) (clicks : list (string * world)) :
  (count is_shell (run_clicks self clicks) <= 1)%nat
  /\ (count is_window_destroyed (run_clicks self clicks) <= 1)%nat.
Proof.
  induction clicks as [|[label w] rest [IHs IHd]]; [cbn; lia|].
  cbn [run_clicks].
  destruct (clicked_tidy w label self) as (Hs & Hd & Hopen).
  destruct (window_closed (trace (clicked w label self))).
  - now split.
  - destruct (Hopen eq_refl) as [Hs0 Hd0].
    rewrite !count_app, Hs0, Hd0. now split.
Qed.

(** X16.  In a whole run of the program, whatever buttons are activated
    and whatever the world does, at most one shell command is run and
    the window is destroyed at most once. *)
Theorem main_single_power_command (w : world) (clicks : list (string * world)) :
  (count is_shell (trace (main w clicks)) <= 1)%nat
  /\ (count is_window_destroyed (trace (main w clicks)) <= 1)%nat.
Proof.
  unfold main. pose proof (init_shape w) as H.
  destruct (cache_usable (colors_json w)).
  - destruct H as (css & self & -> & _). rewrite mbind_ok.
    cbn [trace fst]. rewrite !count_app.
    destruct (run_clicks_tidy self clicks) as [Hs Hd].
    cbn. now split.
  - destruct H as (e & ->). rewrite mbind_raise. cbn. lia.
Qed.

(** X17.  A Reboot or Shutdown that is not answered with Yes invokes no
    command and leaves the menu as it was: the activations after it run
    as they would have run without it. *)
Theorem declined_keeps_menu (self : PowerMenu) (a : power_action)
  (w : world) (rest : list (string * world)) :
  dialog_response w <> ResponseType.YES ->
  run_clicks self ((button_label a, w) :: rest)
  = (trace (power_handler w a self) ++ run_clicks self rest)%list
  /\ commands (trace (power_handler w a self)) = []
  /\ commands (run_clicks self ((button_label a, w) :: rest))
     = commands (run_clicks self rest).
Proof.
  intros Hno. apply Z.eqb_neq in Hno.
  assert (Hclick : clicked w (button_label a) self = power_handler w a self)
    by now destruct a.
  assert (Hquiet : window_closed (trace (power_handler w a self)) = false
                   /\ commands (trace (power_handler w a self)) = []).
  { destruct (power_handler_confirm w self a) as (action & message & ->).
    destruct (confirm_action_cases w self action message (fixed_command a))
      as [[e ->] | (b & f & ->)]; [now split|].
    rewrite after_theming_trace, Hno. now split. }
  destruct Hquiet as [Hopen Hnone].
  cbn [run_clicks]. rewrite Hclick, Hopen.
  repeat split; [exact Hnone|].
  now rewrite commands_app, Hnone.
Qed.

Lemma declined_keeps_menu_witness :
  run_clicks default_menu
    [("Reboot", quiet_world FileAbsent); ("Cancel", quiet_world FileAbsent)]
  = (trace (power_handler (quiet_world FileAbsent) Reboot default_menu)
       ++ run_clicks default_menu [("Cancel", quiet_world FileAbsent)])%list
  /\ commands (trace (power_handler (quiet_world FileAbsent) Reboot default_menu))
     = []
  /\ commands (run_clicks default_menu
                 [("Reboot", quiet_world FileAbsent);
                  ("Cancel", quiet_world FileAbsent)])
     = commands (run_clicks default_menu [("Cancel", quiet_world FileAbsent)]).
Proof.
  apply (declined_keeps_menu default_menu Reboot (quiet_world FileAbsent)
           [("Cancel", quiet_world FileAbsent)]).
  discriminate.
Defined.

End Session.
